(** * Kettler Racer 9 USB-to-BLE bridge: a shallow embedding

    The development follows the Python sources module by module:

    - [Py]          the builtins the sources rely on ([int], [round], [max],
                    [str.split], [struct.pack_into], [struct.unpack]);
    - [BikeState]   bike_state.py   (mode, gear, target power, SIM physics);
    - [KettlerUSB]  kettler_usb.py  (telegram parsing, pending power write);
    - [KettlerBLE]  kettler_ble.py  (control point, characteristic encoding);
    - [Server]      server.py       (the control callback and the event wiring).

    Python [int] is [Z]; Python [float] is the kernel's binary64 [float], so
    every arithmetic step rounds exactly as the interpreter does.  Exceptions
    are values of [result]; a method that can be interrupted half way returns
    the state it had reached. *)

From Stdlib Require Import ZArith List Bool String Ascii Lia.
From Stdlib Require Import Floats.PrimFloat Floats.SpecFloat Floats.FloatOps.
From Stdlib Require Import Floats.FloatAxioms.
Import ListNotations.

(* A decimal literal denotes the nearest binary64 value, as in Python. *)
Set Warnings "-inexact-float".

Open Scope Z_scope.

(* ================================================================== *)
(** ** Python builtins *)
(* ================================================================== *)

Module Py.

(** Exceptions raised by the builtins used in the sources. *)
Inductive exn : Type :=
| ValueError
| OverflowError
| StructError.

Inductive result (A : Type) : Type :=
| Ok (a : A)
| Raise (e : exn).
Arguments Ok {A} a.
Arguments Raise {A} e.

Definition bind {A B} (r : result A) (k : A -> result B) : result B :=
  match r with
  | Ok a => k a
  | Raise e => Raise e
  end.

Notation "x <- r ;; k" := (bind r (fun x => k))
  (at level 61, r at next level, right associativity).

(** A Python number as the sources mix them: [int] or [float]. *)
Inductive num : Type :=
| Int (z : Z)
| Float (f : float).

(** *** int -> float *)

(** Correctly rounded (nearest, ties to even) conversion of an integer. *)
Definition of_Z (z : Z) : float :=
  SF2Prim (binary_normalize prec emax z 0 false).

(** The conversion applied when an [int] meets a [float] operand:
    [OverflowError] when the integer is beyond the binary64 range. *)
Definition float_of_int (z : Z) : result float :=
  let f := of_Z z in
  if is_infinity f then Raise OverflowError else Ok f.

(** *** float -> int *)

(** Exact value of a finite mantissa and exponent, truncated toward zero
    ([int(x)]) or rounded down ([math.floor]). *)
Definition trunc_mag (m : positive) (e : Z) : Z :=
  if 0 <=? e then Zpos m * 2 ^ e else Zpos m / 2 ^ (- e).

Definition int_of_float (x : float) : result Z :=
  match Prim2SF x with
  | S754_zero _ => Ok 0
  | S754_finite s m e => Ok (if s then - trunc_mag m e else trunc_mag m e)
  | S754_infinity _ => Raise OverflowError
  | S754_nan => Raise ValueError
  end.

Definition floor_of_float (x : float) : result Z :=
  match Prim2SF x with
  | S754_zero _ => Ok 0
  | S754_finite s m e =>
      Ok (if s
          then if 0 <=? e then - (Zpos m * 2 ^ e)
               else - ((Zpos m + 2 ^ (- e) - 1) / 2 ^ (- e))
          else trunc_mag m e)
  | S754_infinity _ => Raise OverflowError
  | S754_nan => Raise ValueError
  end.

(** [int(v)] on a number. *)
Definition int (v : num) : result Z :=
  match v with
  | Int z => Ok z
  | Float f => int_of_float f
  end.

(** *** max and round *)

(** [max(0.0, x)]: the first argument is kept unless the second is
    strictly greater (so a NaN or a negative zero gives [0.0]). *)
Definition max0 (x : float) : float :=
  if PrimFloat.ltb 0%float x then x else 0%float.

(** Nearest integer to [m * 2^e * 10], ties to even. *)
Definition tenths_half_even (m : positive) (e : Z) : Z :=
  let n := Zpos m * 10 in
  if 0 <=? e then n * 2 ^ e
  else
    let d := 2 ^ (- e) in
    let q := n / d in
    let r := n mod d in
    if 2 * r <? d then q
    else if d <? 2 * r then q + 1
    else if Z.even q then q else q + 1.

(** [round(x, 1)] on a float: the decimal with one fractional digit nearest
    to the exact value of [x] (ties to even), read back as the nearest
    float; zeros, infinities and NaN are returned unchanged. *)
Definition round1 (x : float) : float :=
  match Prim2SF x with
  | S754_finite s m e =>
      match tenths_half_even m e with
      | Zpos n =>
          SF2Prim (SFdiv prec emax (S754_finite s n 0) (S754_finite false 10 0))
      | _ => if s then (-0)%float else 0%float
      end
  | _ => x
  end.

(** [round(v, 1)] on a number: an [int] is returned as it is. *)
Definition round1_num (v : num) : num :=
  match v with
  | Int z => Int z
  | Float f => Float (round1 f)
  end.

(** *** int(str) *)

Definition is_space (c : ascii) : bool :=
  let n := Z.of_nat (nat_of_ascii c) in
  ((9 <=? n) && (n <=? 13)) || (n =? 32).

Definition digit_val (c : ascii) : option Z :=
  let n := Z.of_nat (nat_of_ascii c) in
  if (48 <=? n) && (n <=? 57) then Some (n - 48) else None.

Fixpoint lstrip (s : list ascii) : list ascii :=
  match s with
  | c :: r => if is_space c then lstrip r else s
  | [] => []
  end.

Definition strip (s : list ascii) : list ascii :=
  rev (lstrip (rev (lstrip s))).

(** Digits after the first one; a single underscore may separate two
    digits. [prev_us] tells that the previous character was an underscore. *)
Fixpoint digits (prev_us : bool) (acc : Z) (s : list ascii) : option Z :=
  match s with
  | [] => if prev_us then None else Some acc
  | c :: r =>
      if Ascii.eqb c "_"%char
      then if prev_us then None else digits true acc r
      else match digit_val c with
           | Some d => digits false (10 * acc + d) r
           | None => None
           end
  end.

Definition unsigned_literal (s : list ascii) : option Z :=
  match s with
  | [] => None
  | c :: r =>
      match digit_val c with
      | Some d => digits false d r
      | None => None
      end
  end.

(** [int(s)] for an ASCII string, base 10: surrounding whitespace, an
    optional sign, digits with single underscores between them.  [None]
    stands for [ValueError].  (The interpreter's cap on the number of digits
    of a literal is a run-time setting and is not part of the model.) *)
Definition int_of_str (s : string) : option Z :=
  match strip (list_ascii_of_string s) with
  | c :: r =>
      if Ascii.eqb c "-"%char then option_map Z.opp (unsigned_literal r)
      else if Ascii.eqb c "+"%char then unsigned_literal r
      else unsigned_literal (c :: r)
  | [] => None
  end.

(** [s.split(sep)] for a one character separator. *)
Fixpoint split (sep : ascii) (s : string) : list string :=
  match s with
  | EmptyString => [EmptyString]
  | String c r =>
      if Ascii.eqb c sep then EmptyString :: split sep r
      else match split sep r with
           | h :: t => String c h :: t
           | [] => [String c EmptyString]
           end
  end.

(** *** struct *)

Definition le16 (v : Z) : list Z :=
  [Z.land v 255; Z.land (Z.shiftr v 8) 255].

(** [struct.pack('<H', v)] and [struct.pack('<h', v)]. *)
Definition pack_H (v : Z) : result (list Z) :=
  if (0 <=? v) && (v <=? 65535) then Ok (le16 v) else Raise StructError.

Definition pack_h (v : Z) : result (list Z) :=
  if (-32768 <=? v) && (v <=? 32767) then Ok (le16 v) else Raise StructError.

(** [struct.unpack('<H', [b0, b1])[0]] and its signed counterpart. *)
Definition unpack_H (b0 b1 : Z) : Z := Z.lor b0 (Z.shiftl b1 8).

Definition unpack_h (b0 b1 : Z) : Z :=
  let u := unpack_H b0 b1 in
  if u <? 32768 then u else u - 65536.

(** Writing [bs] into [buffer] at [index] (as [pack_into] and item
    assignment do on a [bytearray] that is long enough). *)
Definition write_at (buffer : list Z) (index : nat) (bs : list Z) : list Z :=
  (firstn index buffer ++ bs ++ skipn (index + List.length bs) buffer)%list.

Definition byte_val (b : Byte.byte) : Z := Z.of_N (Byte.to_N b).

End Py.

(* ================================================================== *)
(** ** The telemetry sample *)
(* ================================================================== *)

(** The dict built by [KettlerUSB.read_and_dispatch] and handed to
    [BikeState.set_data] and [KettlerBLE.notify_ftms].  Its keys are fixed by
    that one producer; a key that is not in the dict is [None]. *)
Module Sample.

Record t : Type := mk {
  speed : option float;
  power : option Z;
  targetPower : option Z;
  cadence : option Z;
  rpm : option Z;
  hr : option Z
}.

Definition is_some {A} (o : option A) : bool :=
  match o with Some _ => true | None => false end.

(** Truth value of the dict: false exactly when it has no key. *)
Definition truthy (d : t) : bool :=
  is_some (speed d) || is_some (power d) || is_some (targetPower d)
  || is_some (cadence d) || is_some (rpm d) || is_some (hr d).

(** [d.get(key, default)] *)
Definition get {A} (o : option A) (default : A) : A :=
  match o with Some v => v | None => default end.

End Sample.

(* ================================================================== *)
(** ** bike_state.py *)
(* ================================================================== *)

Module BikeState.
Import Py.

Definition MIN_GEAR : Z := 1.
Definition MAX_GEAR : Z := 20.

Inductive Mode : Type := ERG | SIM.

Record ExternalConditions : Type := mkExternal {
  windspeed : num;
  grade : num;
  crr : num;
  cw : num
}.

Record t : Type := mk {
  data : option Sample.t;
  external : option ExternalConditions;
  mode : Mode;
  gear : Z;
  target_power : option Z
}.

(** [self.emit(name, value)], one constructor per event name. *)
Inductive event : Type :=
| Emit_mode (m : Mode)
| Emit_gear (g : Z)
| Emit_targetPower (p : Z)
| Emit_simpower (p : num)
| Emit_windspeed (v : num)
| Emit_grade (v : num).

(** What a method leaves behind: the state reached, the events emitted in
    order, and the exception that interrupted it, if any. *)
Definition outcome : Type := t * list event * option exn.

(** [__init__] *)
Definition init : t := mk None None ERG 1 None.

Definition with_data (d : option Sample.t) (s : t) : t :=
  mk d (external s) (mode s) (gear s) (target_power s).
Definition with_external (e : option ExternalConditions) (s : t) : t :=
  mk (data s) e (mode s) (gear s) (target_power s).
Definition with_mode (m : Mode) (s : t) : t :=
  mk (data s) (external s) m (gear s) (target_power s).
Definition with_gear (g : Z) (s : t) : t :=
  mk (data s) (external s) (mode s) g (target_power s).
Definition with_target_power (p : option Z) (s : t) : t :=
  mk (data s) (external s) (mode s) (gear s) p.

Definition restart (s : t) : t * list event :=
  (with_data None (with_mode ERG s), [Emit_mode ERG]).

Definition set_control (s : t) : t := s.

Definition set_gear (n : Z) (s : t) : t * list event :=
  let g := Z.max MIN_GEAR (Z.min MAX_GEAR n) in
  (with_gear g s, [Emit_gear g]).

Definition gear_up (s : t) : t * list event :=
  let g := Z.min MAX_GEAR (gear s + 1) in
  (with_gear g s, [Emit_gear g]).

Definition gear_down (s : t) : t * list event :=
  let g := Z.max MIN_GEAR (gear s - 1) in
  (with_gear g s, [Emit_gear g]).

Definition set_target_power (power : num) (s : t) : outcome :=
  let s := with_mode ERG s in
  match Py.int power with
  | Raise e => (s, [Emit_mode ERG], Some e)
  | Ok p =>
      (with_target_power (Some p) s,
       [Emit_mode ERG; Emit_targetPower p; Emit_simpower (Int p)],
       None)
  end.

Definition add_power (increment : Z) (s : t) : t * list event :=
  let tp := match target_power s with None => 100 | Some p => p end in
  let tp := tp + increment in
  let tp := Z.max 0 (Z.min 1000 tp) in
  (with_target_power (Some tp) s, [Emit_targetPower tp; Emit_simpower (Int tp)]).

Definition set_external_condition (windspeed grade crr cw : num) (s : t)
  : outcome :=
  let s := with_mode SIM s in
  let s := with_external (Some (mkExternal windspeed grade crr cw)) s in
  (* windspeed * 3.6 : an int operand is converted first *)
  match (match windspeed with Int z => float_of_int z | Float f => Ok f end) with
  | Raise e => (s, [Emit_mode SIM], Some e)
  | Ok w =>
      (s,
       [Emit_mode SIM;
        Emit_windspeed (Float (round1 (w * 3.6)%float));
        Emit_grade (round1_num grade)],
       None)
  end.

(** The SIM branch of [compute], once mode, data and conditions are there. *)
Definition simulate (d : Sample.t) (ext : ExternalConditions) (gear : Z)
  : result float :=
  let rpm := Sample.get (Sample.rpm d) 80 in
  r <- float_of_int rpm ;;
  (* 3 * grade : int * int stays an int, int * float is a float *)
  g3 <- match grade ext with
        | Int g => float_of_int (3 * g)
        | Float g => Ok (3 * g)%float
        end ;;
  let simpower :=
    (170 * (1 + 1.15 * (r - 80) / 80) * (1 + g3 / 100))%float in
  k <- float_of_int (gear - 5) ;;
  let simpower := max0 (simpower * (1 + 0.1 * k))%float in
  let simpower := round1 simpower in
  Ok simpower.

Definition compute (s : t) : result (list event) :=
  match mode s with
  | ERG => Ok []
  | SIM =>
      match data s with
      | None => Ok []
      | Some d =>
          match external s with
          | None => Ok []
          | Some ext =>
              simpower <- simulate d ext (gear s) ;;
              Ok [Emit_simpower (Float simpower)]
          end
      end
  end.

Definition set_data (d : Sample.t) (s : t) : outcome :=
  let s := with_data (Some d) s in
  let '(s, evs) :=
    match target_power s, Sample.targetPower d with
    | None, Some tp => (with_target_power (Some tp) s, [Emit_targetPower tp])
    | _, _ => (s, [])
    end in
  match compute s with
  | Ok evs' => (s, (evs ++ evs')%list, None)
  | Raise e => (s, evs, Some e)
  end.

(** Gear commands, for statements about sequences of them. *)
Inductive gear_op : Type :=
| SetGear (n : Z)
| GearUp
| GearDown.

Definition gear_step (op : gear_op) (s : t) : t * list event :=
  match op with
  | SetGear n => set_gear n s
  | GearUp => gear_up s
  | GearDown => gear_down s
  end.

(** Running a list of calls from a state, collecting the events. *)
Fixpoint run {O} (step : O -> t -> t * list event) (ops : list O) (s : t)
  : t * list event :=
  match ops with
  | [] => (s, [])
  | op :: rest =>
      let '(s1, e1) := step op s in
      let '(s2, e2) := run step rest s1 in
      (s2, (e1 ++ e2)%list)
  end.

End BikeState.

(* ================================================================== *)
(** ** kettler_usb.py *)
(* ================================================================== *)

Module KettlerUSB.
Import Py.

(** The serial port ([port] is [None] or closed, or open), the pending
    write and the last requested power ([__init__]: no port, [False], [-1]). *)
Record t : Type := mk {
  port_open : bool;
  write_power : bool;
  power : Z
}.

Definition init : t := mk false false (-1).

Inductive event : Type :=
| Emit_data (d : Sample.t)
| Emit_key (k : Z).

Definition tab : ascii := "009"%char.

Definition field (states : list string) (i : nat) : string :=
  nth i states EmptyString.

Definition read_and_dispatch (data : string) : result (list event) :=
  let states := split tab data in
  if (List.length states =? 8)%nat then
    (* speed * 0.1 : the int is converted to a float first *)
    speed <- match int_of_str (field states 2) with
             | None => Ok None
             | Some n => f <- float_of_int n ;; Ok (Some (f * 0.1)%float)
             end ;;
    let power := int_of_str (field states 7) in
    let target_power := int_of_str (field states 4) in
    let cadence := int_of_str (field states 1) in
    let hr := int_of_str (field states 0) in
    let data_out := Sample.mk speed power target_power cadence cadence hr in
    if Sample.truthy data_out then Ok [Emit_data data_out] else Ok []
  else if (List.length states =? 4)%nat then
    match int_of_str (field states 3) with
    | Some key => Ok [Emit_key key]
    | None => Ok []
    end
  else Ok [].

Definition set_power (power : num) (s : t) : result t :=
  i <- Py.int power ;;
  let p := Z.max 0 i in
  if p =? KettlerUSB.power s then Ok s else Ok (mk (port_open s) true p).

(** Commands written to the serial line. *)
Inductive command : Type :=
| PW (watts : Z)
| ST
| VE
| ID.

(** One turn of [_poll_loop] on an open port. *)
Definition poll_once (s : t) : t * command :=
  if write_power s
  then (mk (port_open s) false (power s), PW (power s))
  else (s, ST).

Definition stop : list command := [VE; ID; VE].

(** [restart]: on an open port, the writes of [stop], then the port is
    closed. *)
Definition restart (s : t) : t * list command :=
  if port_open s
  then (mk false (write_power s) (power s), stop)
  else (s, []).

(** [n] turns of [_poll_loop], one per second; the loop is left as soon as
    the port is not open. *)
Fixpoint _poll_loop (n : nat) (s : t) : t * list command :=
  match n with
  | O => (s, [])
  | S n' =>
      if port_open s then
        let '(s1, c) := poll_once s in
        let '(s2, cs) := _poll_loop n' s1 in
        (s2, c :: cs)
      else (s, [])
  end.

End KettlerUSB.

(* ================================================================== *)
(** ** kettler_ble.py *)
(* ================================================================== *)

Module KettlerBLE.
Import Py.

(** A characteristic handed over by the stack on subscription. *)
Record characteristic : Type := mkChar { is_notifying : bool }.

Record t : Type := mk {
  under_control : bool;
  indoor_bike_data : list Z;
  cycling_power_data : list Z;
  machine_status : list Z;
  (* [__init__] stores the int 0; every later value is a float, and the
     first use adds a float to it, so 0.0 stands for it *)
  crank_revolutions : float;
  last_event_time : Z;
  last_update_timestamp : float;
  indoor_bike_char : option characteristic;
  cycling_power_char : option characteristic;
  machine_status_char : option characteristic;
  control_point_char : option characteristic
}.

(** [__init__], at clock reading [now]. *)
Definition init (now : float) : t :=
  mk false (repeat 0 10) (repeat 0 8) [4] 0%float 0 now None None None None.

Definition with_under_control (b : bool) (s : t) : t :=
  mk b (indoor_bike_data s) (cycling_power_data s) (machine_status s)
     (crank_revolutions s) (last_event_time s) (last_update_timestamp s)
     (indoor_bike_char s) (cycling_power_char s) (machine_status_char s)
     (control_point_char s).
Definition with_indoor_bike_data (v : list Z) (s : t) : t :=
  mk (under_control s) v (cycling_power_data s) (machine_status s)
     (crank_revolutions s) (last_event_time s) (last_update_timestamp s)
     (indoor_bike_char s) (cycling_power_char s) (machine_status_char s)
     (control_point_char s).
Definition with_cycling_power_data (v : list Z) (s : t) : t :=
  mk (under_control s) (indoor_bike_data s) v (machine_status s)
     (crank_revolutions s) (last_event_time s) (last_update_timestamp s)
     (indoor_bike_char s) (cycling_power_char s) (machine_status_char s)
     (control_point_char s).
Definition with_crank_revolutions (v : float) (s : t) : t :=
  mk (under_control s) (indoor_bike_data s) (cycling_power_data s)
     (machine_status s) v (last_event_time s) (last_update_timestamp s)
     (indoor_bike_char s) (cycling_power_char s) (machine_status_char s)
     (control_point_char s).
Definition with_last_event_time (v : Z) (s : t) : t :=
  mk (under_control s) (indoor_bike_data s) (cycling_power_data s)
     (machine_status s) (crank_revolutions s) v (last_update_timestamp s)
     (indoor_bike_char s) (cycling_power_char s) (machine_status_char s)
     (control_point_char s).
Definition with_last_update_timestamp (v : float) (s : t) : t :=
  mk (under_control s) (indoor_bike_data s) (cycling_power_data s)
     (machine_status s) (crank_revolutions s) (last_event_time s) v
     (indoor_bike_char s) (cycling_power_char s) (machine_status_char s)
     (control_point_char s).
Definition with_control_point_char (c : option characteristic) (s : t) : t :=
  mk (under_control s) (indoor_bike_data s) (cycling_power_data s)
     (machine_status s) (crank_revolutions s) (last_event_time s)
     (last_update_timestamp s)
     (indoor_bike_char s) (cycling_power_char s) (machine_status_char s) c.
Definition with_cycling_power_char (c : option characteristic) (s : t) : t :=
  mk (under_control s) (indoor_bike_data s) (cycling_power_data s)
     (machine_status s) (crank_revolutions s) (last_event_time s)
     (last_update_timestamp s)
     (indoor_bike_char s) c (machine_status_char s) (control_point_char s).
Definition with_indoor_bike_char (c : option characteristic) (s : t) : t :=
  mk (under_control s) (indoor_bike_data s) (cycling_power_data s)
     (machine_status s) (crank_revolutions s) (last_event_time s)
     (last_update_timestamp s)
     c (cycling_power_char s) (machine_status_char s) (control_point_char s).

(** The [set_value] calls made on the stack's characteristics. *)
Inductive push : Type :=
| Set_control_point (response : list Z)
| Set_indoor_bike (value : list Z)
| Set_cycling_power (value : list Z).

(** Subscription callbacks. *)
Definition _control_point_indicate_callback
  (indicating : bool) (c : characteristic) (s : t) : t :=
  with_control_point_char (if indicating then Some c else None) s.

Definition _cycling_power_notify_callback
  (notifying : bool) (c : characteristic) (s : t) : t :=
  with_cycling_power_char (if notifying then Some c else None) s.

Definition _indoor_bike_notify_callback
  (notifying : bool) (c : characteristic) (s : t) : t :=
  with_indoor_bike_char (if notifying then Some c else None) s.

(** Result codes of the control point. *)
Definition RESULT_SUCCESS : Z := 0x01.
Definition RESULT_OP_CODE_NOT_SUPPORTED : Z := 0x02.
Definition RESULT_INVALID_PARAMETER : Z := 0x03.
Definition RESULT_OPERATION_FAILED : Z := 0x04.
Definition RESULT_CONTROL_NOT_PERMITTED : Z := 0x05.

Definition _send_control_point_response (opcode result_code : Z) (s : t)
  : list push :=
  let response := [0x80; opcode; result_code] in
  match control_point_char s with
  | Some _ => [Set_control_point response]
  | None => []
  end.

(** The calls [control_callback(name, *args)]. *)
Inductive message : Type :=
| Control
| Reset
| Power (power : Z)
| Start
| Stop
| Simulation (windspeed grade crr cw : float).

Definition byte_at (value : list Byte.byte) (i : nat) : Z :=
  byte_val (nth i value Byte.x00).

Section ControlPoint.

(** What the callback acts on, and the callback given to the constructor
    ([None] when there is none).  It returns the truth value of its
    result, or raises. *)
Context {E : Type}.
Variable control_callback : option (message -> E -> E * result bool).

(** [self.control_callback and self.control_callback(...)] *)
Definition guarded_call (m : message) (e : E) : E * result bool :=
  match control_callback with
  | None => (e, Ok false)
  | Some cb => cb m e
  end.

(** [if self.control_callback: self.control_callback(...)] *)
Definition optional_call (m : message) (e : E) : E * result bool :=
  match control_callback with
  | None => (e, Ok true)
  | Some cb => cb m e
  end.

(** A raised exception ends the handler in its [except] clause: the state
    reached so far stays, nothing is answered. *)
Definition _handle_control_point_write
  (value : list Byte.byte) (s : t) (e : E) : t * E * list push :=
  match value with
  | [] => (s, e, [])
  | b0 :: _ =>
      let opcode := byte_val b0 in
      if opcode =? 0x00 then
        if negb (under_control s) then
          match guarded_call Control e with
          | (e, Ok true) =>
              let s := with_under_control true s in
              (s, e, _send_control_point_response opcode RESULT_SUCCESS s)
          | (e, Ok false) =>
              (s, e, _send_control_point_response opcode RESULT_OPERATION_FAILED s)
          | (e, Raise _) => (s, e, [])
          end
        else (s, e, _send_control_point_response opcode RESULT_SUCCESS s)
      else if opcode =? 0x01 then
        if under_control s then
          match optional_call Reset e with
          | (e, Ok _) =>
              let s := with_under_control false s in
              (s, e, _send_control_point_response opcode RESULT_SUCCESS s)
          | (e, Raise _) => (s, e, [])
          end
        else
          (s, e, _send_control_point_response opcode RESULT_CONTROL_NOT_PERMITTED s)
      else if opcode =? 0x05 then
        if under_control s then
          if (3 <=? List.length value)%nat then
            let power := unpack_H (byte_at value 1) (byte_at value 2) in
            match guarded_call (Power power) e with
            | (e, Ok true) =>
                (s, e, _send_control_point_response opcode RESULT_SUCCESS s)
            | (e, Ok false) =>
                (s, e, _send_control_point_response opcode RESULT_OPERATION_FAILED s)
            | (e, Raise _) => (s, e, [])
            end
          else
            (s, e, _send_control_point_response opcode RESULT_INVALID_PARAMETER s)
        else
          (s, e, _send_control_point_response opcode RESULT_CONTROL_NOT_PERMITTED s)
      else if opcode =? 0x07 then
        match optional_call Start e with
        | (e, Ok _) => (s, e, _send_control_point_response opcode RESULT_SUCCESS s)
        | (e, Raise _) => (s, e, [])
        end
      else if opcode =? 0x08 then
        match optional_call Stop e with
        | (e, Ok _) => (s, e, _send_control_point_response opcode RESULT_SUCCESS s)
        | (e, Raise _) => (s, e, [])
        end
      else if opcode =? 0x11 then
        if (7 <=? List.length value)%nat then
          (* 16 and 8 bit integers times a float: the conversion is exact *)
          let windspeed :=
            (of_Z (unpack_h (byte_at value 1) (byte_at value 2)) * 0.001)%float in
          let grade :=
            (of_Z (unpack_h (byte_at value 3) (byte_at value 4)) * 0.01)%float in
          let crr := (of_Z (byte_at value 5) * 0.0001)%float in
          let cw := (of_Z (byte_at value 6) * 0.01)%float in
          match guarded_call (Simulation windspeed grade crr cw) e with
          | (e, Ok true) =>
              (s, e, _send_control_point_response opcode RESULT_SUCCESS s)
          | (e, Ok false) =>
              (s, e, _send_control_point_response opcode RESULT_OPERATION_FAILED s)
          | (e, Raise _) => (s, e, [])
          end
        else
          (s, e, _send_control_point_response opcode RESULT_INVALID_PARAMETER s)
      else
        (s, e, _send_control_point_response opcode RESULT_OP_CODE_NOT_SUPPORTED s)
  end.

End ControlPoint.

(** The buffer of [_update_indoor_bike_data], or the exception of the first
    conversion or pack that fails. *)
Definition indoor_bike_buffer (d : Sample.t) : result (list Z) :=
  let buffer := repeat 0 10 in
  let buffer := write_at buffer 0 [0x44] in
  let buffer := write_at buffer 1 [0x02] in
  (* speed * 100 : the default is the int 0 *)
  speed_value <- match Sample.speed d with
                 | Some speed => int_of_float (speed * 100)%float
                 | None => Ok 0
                 end ;;
  bs <- pack_H speed_value ;;
  let buffer := write_at buffer 2 bs in
  let rpm := Sample.get (Sample.rpm d) 0 in
  let cadence_value := rpm * 2 in
  bs <- pack_H cadence_value ;;
  let buffer := write_at buffer 4 bs in
  let power := Sample.get (Sample.power d) 0 in
  bs <- pack_h power ;;
  let buffer := write_at buffer 6 bs in
  let hr := Sample.get (Sample.hr d) 0 in
  if 0 <? hr then
    if hr <=? 255 then Ok (write_at buffer 8 [hr]) else Raise ValueError
  else Ok buffer.

Definition notifying (c : option characteristic) : bool :=
  match c with
  | Some ch => is_notifying ch
  | None => false
  end.

Definition _update_indoor_bike_data (d : Sample.t) (s : t) : t * list push :=
  match indoor_bike_buffer d with
  | Raise _ => (s, [])
  | Ok buffer =>
      (with_indoor_bike_data buffer s,
       if notifying (indoor_bike_char s) then [Set_indoor_bike buffer] else [])
  end.

(** [_update_cycling_power], with [now] the reading of [time.time()].  Each
    [Raise] branch is the [except] clause reached from that statement. *)
Definition _update_cycling_power (now : float) (d : Sample.t) (s : t)
  : t * list push :=
  let current_time := now in
  let time_delta := (current_time - last_update_timestamp s)%float in
  let s := with_last_update_timestamp current_time s in
  let rpm := Sample.get (Sample.rpm d) 0 in
  match float_of_int rpm with
  | Raise _ => (s, [])
  | Ok r =>
      let revolutions_delta := (r / 60 * time_delta)%float in
      let s := with_crank_revolutions
                 (crank_revolutions s + revolutions_delta)%float s in
      match int_of_float (time_delta * 1024)%float with
      | Raise _ => (s, [])
      | Ok time_units_delta =>
          let s := with_last_event_time
                     (last_event_time s + time_units_delta) s in
          match int_of_float (crank_revolutions s) with
          | Raise _ => (s, [])
          | Ok crank_int =>
              let crank_rev_uint16 := Z.land crank_int 0xFFFF in
              let event_time_uint16 := Z.land (last_event_time s) 0xFFFF in
              let buffer := repeat 0 8 in
              let buffer := write_at buffer 0 [0x20] in
              let buffer := write_at buffer 1 [0x00] in
              let power := Sample.get (Sample.power d) 0 in
              match pack_h power with
              | Raise _ => (s, [])
              | Ok bs =>
                  let buffer := write_at buffer 2 bs in
                  (* both masked values are within the range of '<H' *)
                  let buffer := write_at buffer 4 (le16 crank_rev_uint16) in
                  let buffer := write_at buffer 6 (le16 event_time_uint16) in
                  (with_cycling_power_data buffer s,
                   if notifying (cycling_power_char s)
                   then [Set_cycling_power buffer] else [])
              end
          end
      end
  end.

Definition notify_ftms (now : float) (data : Sample.t) (s : t)
  : t * list push :=
  if negb (Sample.truthy data) then (s, [])
  else
    let '(s, p1) :=
      if Sample.is_some (Sample.speed data) || Sample.is_some (Sample.rpm data)
         || Sample.is_some (Sample.power data)
      then _update_indoor_bike_data data s
      else (s, []) in
    let '(s, p2) :=
      if Sample.is_some (Sample.power data)
      then _update_cycling_power now data s
      else (s, []) in
    (s, (p1 ++ p2)%list).

End KettlerBLE.

(* ================================================================== *)
(** ** server.py *)
(* ================================================================== *)

Module Server.
Import Py.

(** The component instances once [main] has created them, with what the
    handlers of [setup_bike_state_events] send on: the events forwarded to
    the dashboard and the commands written to the serial line. *)
Record world : Type := mk {
  bike_state : BikeState.t;
  kettler_usb : KettlerUSB.t;
  dashboard : list BikeState.event;
  serial : list KettlerUSB.command
}.

Definition with_bike_state (b : BikeState.t) (w : world) : world :=
  mk b (kettler_usb w) (dashboard w) (serial w).
Definition with_kettler_usb (u : KettlerUSB.t) (w : world) : world :=
  mk (bike_state w) u (dashboard w) (serial w).

(** The handler registered for one event: every event goes to the
    dashboard, and [simpower] also to [kettler_usb.set_power]. *)
Definition on_event (ev : BikeState.event) (w : world) : world * option exn :=
  let w := mk (bike_state w) (kettler_usb w) (dashboard w ++ [ev]) (serial w) in
  match ev with
  | BikeState.Emit_simpower sp =>
      match KettlerUSB.set_power sp (kettler_usb w) with
      | Ok u => (with_kettler_usb u w, None)
      | Raise e => (w, Some e)
      end
  | _ => (w, None)
  end.

Fixpoint dispatch (evs : list BikeState.event) (w : world)
  : world * option exn :=
  match evs with
  | [] => (w, None)
  | ev :: rest =>
      match on_event ev w with
      | (w, None) => dispatch rest w
      | (w, Some e) => (w, Some e)
      end
  end.

(** A method of [bike_state] called from the server: its events reach the
    handlers in order; an exception of a handler or of the method ends it. *)
Definition settle (o : BikeState.outcome) (w : world) : world * option exn :=
  let '(b, evs, ex) := o in
  match dispatch evs (with_bike_state b w) with
  | (w, Some e) => (w, Some e)
  | (w, None) => (w, ex)
  end.

Definition returns (r : world * option exn) (v : bool) : world * result bool :=
  match r with
  | (w, None) => (w, Ok v)
  | (w, Some e) => (w, Raise e)
  end.

Definition ble_control_callback (m : KettlerBLE.message) (w : world)
  : world * result bool :=
  match m with
  | KettlerBLE.Reset =>
      let '(u, cmds) := KettlerUSB.restart (kettler_usb w) in
      let w := mk (bike_state w) u (dashboard w) (serial w ++ cmds) in
      let '(b, evs) := BikeState.restart (bike_state w) in
      returns (settle (b, evs, None) w) true
  | KettlerBLE.Control =>
      (with_bike_state (BikeState.set_control (bike_state w)) w, Ok true)
  | KettlerBLE.Power power =>
      returns (settle (BikeState.set_target_power (Int power) (bike_state w)) w)
              true
  | KettlerBLE.Simulation windspeed grade crr cw =>
      returns
        (settle (BikeState.set_external_condition
                   (Float windspeed) (Float grade) (Float crr) (Float cw)
                   (bike_state w)) w)
        true
  | KettlerBLE.Start | KettlerBLE.Stop => (w, Ok false)
  end.

(** The control point as [start_ble_server] builds it. *)
Definition control_point_write
  (value : list Byte.byte) (s : KettlerBLE.t) (w : world)
  : KettlerBLE.t * world * list KettlerBLE.push :=
  KettlerBLE._handle_control_point_write (Some ble_control_callback) value s w.

(** [main]: a fresh bike state put in gear 4, a fresh serial driver. *)
Definition init : world :=
  mk (fst (BikeState.set_gear 4 BikeState.init)) KettlerUSB.init [] [].

(** [handle_key]: the keys of the dashboard. *)
Definition handle_key (key_event : string) (w : world) : world * option exn :=
  if String.eqb key_event "PowerUp" then
    let '(b, evs) := BikeState.add_power 20 (bike_state w) in
    settle (b, evs, None) w
  else if String.eqb key_event "PowerDn" then
    let '(b, evs) := BikeState.add_power (-20) (bike_state w) in
    settle (b, evs, None) w
  else if String.eqb key_event "GearUp" then
    let '(b, evs) := BikeState.gear_up (bike_state w) in
    settle (b, evs, None) w
  else if String.eqb key_event "GearDn" then
    let '(b, evs) := BikeState.gear_down (bike_state w) in
    settle (b, evs, None) w
  else if String.eqb key_event "pause" then
    settle (BikeState.set_target_power (Int 140) (bike_state w)) w
  else (w, None).

(** [handle_mode]: the mode switch of the dashboard. *)
Definition handle_mode (new_mode : string) (w : world) : world * option exn :=
  if String.eqb new_mode "SIM" then
    settle (BikeState.set_external_condition
              (Int 0) (Int 3) (Float 0.005) (Float 0.39) (bike_state w)) w
  else if String.eqb new_mode "ERG" then
    settle (BikeState.set_target_power (Int 100) (bike_state w)) w
  else (w, None).

(** What [on_data] sends to the web clients, in its order; the speed goes
    out formatted with one decimal. *)
Inductive telemetry : Type :=
| Web_speed (v : float)
| Web_power (v : Z)
| Web_targetPower (v : Z)
| Web_hr (v : Z)
| Web_rpm (v : Z).

Definition to_web (d : Sample.t) : list telemetry :=
  (match Sample.speed d with Some v => [Web_speed v] | None => [] end
   ++ match Sample.power d with Some v => [Web_power v] | None => [] end
   ++ match Sample.targetPower d with Some v => [Web_targetPower v] | None => [] end
   ++ match Sample.hr d with Some v => [Web_hr v] | None => [] end
   ++ match Sample.rpm d with Some v => [Web_rpm v] | None => [] end)%list.

(** [on_data], the handler of the samples of the serial driver, with the
    BLE server running and [now] its clock reading.  An exception of
    [set_data] leaves the handler before anything else is sent. *)
Definition on_data (now : float) (data : Sample.t)
  (w : world) (ble : KettlerBLE.t)
  : world * KettlerBLE.t * list telemetry * list KettlerBLE.push * option exn :=
  match settle (BikeState.set_data data (bike_state w)) w with
  | (w, Some e) => (w, ble, [], [], Some e)
  | (w, None) =>
      let '(ble, pushes) := KettlerBLE.notify_ftms now data ble in
      (w, ble, to_web data, pushes, None)
  end.

End Server.

(* ================================================================== *)
(** ** Vocabulary of the statements *)
(* ================================================================== *)

(** What the statements below compare the code with. *)
Module Expected.
Import Py BikeState.

Definition clamp (lo hi v : Z) : Z := Z.max lo (Z.min hi v).

(** The spec's words for a sequence of [addPower] calls: the successive
    target powers, each the previous one plus the delta, clamped. *)
Fixpoint expected_targets (tp : Z) (deltas : list Z) : list Z :=
  match deltas with
  | [] => []
  | d :: rest =>
      let v := clamp 0 1000 (tp + d) in
      v :: expected_targets v rest
  end.

Definition power_events (v : Z) : list event :=
  [Emit_targetPower v; Emit_simpower (Int v)].

(** A telegram as the bike sends it: the fields joined by tabs. *)
Definition telegram (fields : list string) : string :=
  String.concat (String KettlerUSB.tab EmptyString) fields.

(** A session at the control point: the writes handled one after the
    other, the [set_value] calls collected. *)
Fixpoint control_point_session (values : list (list Byte.byte))
  (s : KettlerBLE.t) (w : Server.world)
  : KettlerBLE.t * Server.world * list KettlerBLE.push :=
  match values with
  | [] => (s, w, [])
  | value :: rest =>
      let '(s, w, p1) := Server.control_point_write value s w in
      let '(s, w, p2) := control_point_session rest s w in
      (s, w, (p1 ++ p2)%list)
  end.

(** A float below zero (finite, sign bit set): where truncating toward
    zero and rounding down part. *)
Definition negative (x : float) : bool :=
  match Prim2SF x with
  | S754_finite true _ _ => true
  | _ => false
  end.

(** A bike state in SIM mode with a sample that carries [rpm] (or not),
    conditions of the given grade, and the given gear. *)
Definition sim_state (rpm : option Z) (grade : num) (gear : Z) : BikeState.t :=
  BikeState.mk
    (Some (Sample.mk None None None rpm rpm None))
    (Some (mkExternal (Int 0) grade (Float 0.005) (Float 0.39)))
    SIM gear None.

(** A speed field of 400 nines. *)
Definition long_speed : string :=
  string_of_list_ascii (repeat "9"%char 400).

Definition gear_ok (g : Z) : Prop := MIN_GEAR <= g <= MAX_GEAR.

Definition emitted_gears (evs : list event) : list Z :=
  flat_map (fun ev => match ev with Emit_gear g => [g] | _ => [] end) evs.

End Expected.

(* ================================================================== *)
(** ** Sequences of calls *)
(* ================================================================== *)

(** The objects live on after a call, also after one that raised: a sequence
    of calls continues from the state the previous call left. *)
Module Scenarios.
Import Py.

(** The public methods of [BikeState]. *)
Inductive call : Type :=
| Restart
| Set_control
| Set_data (d : Sample.t)
| Set_gear (n : Z)
| Gear_up
| Gear_down
| Set_target_power (power : num)
| Add_power (increment : Z)
| Set_external_condition (windspeed grade crr cw : num).

Definition perform (c : call) (s : BikeState.t) : BikeState.outcome :=
  match c with
  | Restart => let '(s, evs) := BikeState.restart s in (s, evs, None)
  | Set_control => (BikeState.set_control s, [], None)
  | Set_data d => BikeState.set_data d s
  | Set_gear n => let '(s, evs) := BikeState.set_gear n s in (s, evs, None)
  | Gear_up => let '(s, evs) := BikeState.gear_up s in (s, evs, None)
  | Gear_down => let '(s, evs) := BikeState.gear_down s in (s, evs, None)
  | Set_target_power power => BikeState.set_target_power power s
  | Add_power increment =>
      let '(s, evs) := BikeState.add_power increment s in (s, evs, None)
  | Set_external_condition windspeed grade crr cw =>
      BikeState.set_external_condition windspeed grade crr cw s
  end.

(** The bike state after a sequence of calls. *)
Fixpoint after (cs : list call) (s : BikeState.t) : BikeState.t :=
  match cs with
  | [] => s
  | c :: rest => after rest (fst (fst (perform c s)))
  end.

(** The target power a sample latches, if it carries one. *)
Fixpoint first_target (ds : list Sample.t) : option Z :=
  match ds with
  | [] => None
  | d :: rest =>
      match Sample.targetPower d with
      | Some tp => Some tp
      | None => first_target rest
      end
  end.

(** Samples handed to [notify_ftms] one after the other, each with the
    clock reading of its arrival. *)
Fixpoint notify_all (xs : list (float * Sample.t)) (s : KettlerBLE.t)
  : KettlerBLE.t * list KettlerBLE.push :=
  match xs with
  | [] => (s, [])
  | (now, d) :: rest =>
      let '(s1, p1) := KettlerBLE.notify_ftms now d s in
      let '(s2, p2) := notify_all rest s1 in
      (s2, (p1 ++ p2)%list)
  end.

(** Keys pressed on the dashboard one after the other. *)
Fixpoint press_all (keys : list string) (w : Server.world) : Server.world :=
  match keys with
  | [] => w
  | k :: rest => press_all rest (fst (Server.handle_key k w))
  end.

(** The opcodes the control point knows. *)
Definition known_opcode (opcode : Z) : bool :=
  (opcode =? 0x00) || (opcode =? 0x01) || (opcode =? 0x05)
  || (opcode =? 0x07) || (opcode =? 0x08) || (opcode =? 0x11).

(** A byte value. *)
Definition is_byte (v : Z) : Prop := 0 <= v <= 255.


(** Events that do not reach the serial driver: none is a [simpower]. *)
Definition quiet (evs : list BikeState.event) : Prop :=
  forall p, ~ In (BikeState.Emit_simpower p) evs.

(** The bike's target power and the power last requested from the serial
    driver agree: none of them set yet, or both the same value in 0..1000. *)
Definition in_step (w : Server.world) : Prop :=
  (BikeState.target_power (Server.bike_state w) = None
   /\ KettlerUSB.power (Server.kettler_usb w) = -1)
  \/ (exists p,
        BikeState.target_power (Server.bike_state w) = Some p
        /\ 0 <= p <= 1000
        /\ KettlerUSB.power (Server.kettler_usb w) = p).

(** A field of a telegram: a string without a tab. *)
Fixpoint tab_free (f : string) : bool :=
  match f with
  | EmptyString => true
  | String c r => negb (Ascii.eqb c KettlerUSB.tab) && tab_free r
  end.

End Scenarios.

(* ================================================================== *)
(** ** Properties of bike_state.py *)
(* ================================================================== *)

Module BikeStateSpec.
Import Py BikeState Expected.

Lemma clamp_bounds lo hi v : lo <= hi -> lo <= clamp lo hi v <= hi.
Proof. unfold clamp; lia. Qed.

Lemma with_gear_same s : with_gear (gear s) s = s.
Proof. destruct s; reflexivity. Qed.

(** *** Target power *)

Lemma expected_targets_bounds deltas :
  forall tp, Forall (fun v => 0 <= v <= 1000) (expected_targets tp deltas).
Proof.
  induction deltas as [|d rest IH]; intro tp; simpl.
  - constructor.
  - constructor; [apply clamp_bounds; lia | apply IH].
Qed.

Lemma add_power_step increment s :
  add_power increment s =
  (let v := clamp 0 1000 (Sample.get (target_power s) 100 + increment) in
   (with_target_power (Some v) s, power_events v)).
Proof. unfold add_power; destruct (target_power s); reflexivity. Qed.

Lemma run_cons {O} (step : O -> t -> t * list event) op rest s :
  run step (op :: rest) s
  = (fst (run step rest (fst (step op s))),
     (snd (step op s) ++ snd (run step rest (fst (step op s))))%list).
Proof.
  cbn [run]. destruct (step op s) as [s1 e1]. cbn [fst snd].
  destruct (run step rest s1); reflexivity.
Qed.

Lemma last_default {A} (l : list A) (x d d' : A) :
  last (x :: l) d = last (x :: l) d'.
Proof.
  revert x; induction l as [|y l IH]; intro x; [reflexivity|].
  change (last (y :: l) d = last (y :: l) d'). apply IH.
Qed.

Lemma last_cons {A} (l : list A) (x d : A) : last (x :: l) d = last l x.
Proof.
  destruct l as [|y l]; [reflexivity|].
  change (last (y :: l) d = last (y :: l) x). apply last_default.
Qed.

Lemma run_add_power deltas :
  forall s,
    let tp := Sample.get (target_power s) 100 in
    let vs := expected_targets tp deltas in
    snd (run add_power deltas s) = flat_map power_events vs
    /\ target_power (fst (run add_power deltas s))
       = last (map Some vs) (target_power s).
Proof.
  induction deltas as [|d rest IH]; intro s; cbn zeta.
  - split; reflexivity.
  - rewrite run_cons, add_power_step. cbn [fst snd expected_targets].
    set (v := clamp 0 1000 (Sample.get (target_power s) 100 + d)).
    destruct (IH (with_target_power (Some v) s)) as [IHe IHt].
    cbn [with_target_power target_power Sample.get] in IHe, IHt.
    split.
    + cbn [flat_map]. now rewrite IHe.
    + rewrite IHt. cbn [map]. apply eq_sym, last_cons.
Qed.

(** C6: for every sequence of [add_power] calls from an unset target power,
    the first call starts from 100, every result is clamped to [0, 1000],
    and every call emits [targetPower] and then [simpower] with the
    resulting value. *)
Theorem add_power_from_unset (deltas : list Z) (s : t) :
  target_power s = None ->
  let vs := expected_targets 100 deltas in
  snd (run add_power deltas s) = flat_map power_events vs
  /\ Forall (fun v => 0 <= v <= 1000) vs
  /\ target_power (fst (run add_power deltas s)) = last (map Some vs) None
  /\ hd_error vs = option_map (fun d => clamp 0 1000 (100 + d)) (hd_error deltas).
Proof.
  intros Hunset vs.
  destruct (run_add_power deltas s) as [He Ht].
  rewrite Hunset in He, Ht. cbn [Sample.get] in He, Ht.
  repeat split; try assumption.
  - apply expected_targets_bounds.
  - subst vs. destruct deltas; reflexivity.
Qed.

Lemma add_power_from_unset_witness :
  let r := run add_power [20; -20; 2000; -5000] init in
  snd r = flat_map power_events [120; 100; 1000; 0]
  /\ target_power (fst r) = Some 0.
Proof.
  destruct (add_power_from_unset [20; -20; 2000; -5000] init eq_refl)
    as (He & _ & Ht & _).
  split; [exact He | exact Ht].
Defined.

(** *** Gear *)

Lemma gear_step_ok op s :
  gear_ok (gear s) ->
  gear_ok (gear (fst (gear_step op s)))
  /\ snd (gear_step op s) = [Emit_gear (gear (fst (gear_step op s)))].
Proof.
  unfold gear_ok.
  destruct op; cbn [gear_step set_gear gear_up gear_down fst snd gear with_gear];
    unfold MIN_GEAR, MAX_GEAR; split; try reflexivity; lia.
Qed.

Lemma run_gear_ok ops :
  forall s, gear_ok (gear s) ->
    gear_ok (gear (fst (run gear_step ops s)))
    /\ Forall gear_ok (emitted_gears (snd (run gear_step ops s)))
    /\ List.length (snd (run gear_step ops s)) = List.length ops.
Proof.
  induction ops as [|op rest IH]; intros s Hs.
  - cbn. repeat split; [apply Hs | apply Hs | constructor].
  - rewrite run_cons. cbn [fst snd].
    destruct (gear_step_ok op s Hs) as [Hg He].
    destruct (IH _ Hg) as (IHg & IHe & IHl).
    rewrite He. cbn. repeat split; try apply IHg.
    + constructor; [exact Hg | exact IHe].
    + now rewrite IHl.
Qed.

(** C7: after every sequence of [set_gear], [gear_up] and [gear_down] from
    the initial state the gear is within [1, 20], as is every gear value
    emitted on the way (one per call); [gear_up] at 20 and [gear_down] at 1
    leave the state as it is and still emit that gear. *)
Theorem gear_always_in_range :
  (forall ops : list gear_op,
      let r := run gear_step ops init in
      1 <= gear (fst r) <= 20
      /\ Forall (fun g => 1 <= g <= 20) (emitted_gears (snd r))
      /\ List.length (snd r) = List.length ops)
  /\ (forall s, gear s = 20 -> gear_up s = (s, [Emit_gear 20]))
  /\ (forall s, gear s = 1 -> gear_down s = (s, [Emit_gear 1])).
Proof.
  split; [|split].
  - intros ops r. apply (run_gear_ok ops init). cbv; split; discriminate.
  - intros [d e m g tp] H. cbn in H. subst g. reflexivity.
  - intros [d e m g tp] H. cbn in H. subst g. reflexivity.
Qed.

Lemma gear_always_in_range_witness :
  gear_up (with_gear 20 init) = (with_gear 20 init, [Emit_gear 20])
  /\ gear_down init = (init, [Emit_gear 1]).
Proof.
  destruct gear_always_in_range as (_ & Hup & Hdown).
  split; [apply Hup | apply Hdown]; reflexivity.
Defined.

(** C8 as the spec words it fails: a [set_gear] whose clamped argument is
    the current gear would emit nothing. *)
Lemma set_gear_equal_still_emits :
  ~ (forall (n : Z) (s : t),
        clamp 1 20 n = gear s -> snd (set_gear n s) = []).
Proof.
  intro H. specialize (H 1 init eq_refl). discriminate H.
Qed.

(** C8, amended: [set_gear n] always stores [n] clamped to [1, 20] and
    always emits [gear] with that value; when the clamped value is already
    the current gear the state is the same and the event is emitted all the
    same (the call reports nothing). *)
Theorem set_gear_clamps_and_emits (n : Z) (s : t) :
  let g := clamp 1 20 n in
  set_gear n s = (with_gear g s, [Emit_gear g])
  /\ 1 <= g <= 20
  /\ (g = gear s -> set_gear n s = (s, [Emit_gear (gear s)])).
Proof.
  intro g. split; [reflexivity | split].
  - apply clamp_bounds; lia.
  - intro H. unfold set_gear. fold (clamp MIN_GEAR MAX_GEAR n).
    change (clamp MIN_GEAR MAX_GEAR n) with g. rewrite H.
    now rewrite with_gear_same.
Qed.

Lemma set_gear_clamps_and_emits_witness :
  set_gear 0 init = (init, [Emit_gear 1]).
Proof.
  destruct (set_gear_clamps_and_emits 0 init) as (_ & _ & H).
  apply H. reflexivity.
Defined.

End BikeStateSpec.

(* ================================================================== *)
(** ** Properties of kettler_usb.py *)
(* ================================================================== *)

Module KettlerUSBSpec.
Import Py KettlerUSB Expected.

(** *** setResistance *)

Lemma set_power_ok power s i :
  Py.int power = Ok i ->
  set_power power s
  = Ok (if Z.max 0 i =? KettlerUSB.power s then s
        else mk (port_open s) true (Z.max 0 i)).
Proof.
  intro H. unfold set_power. rewrite H. cbn [bind].
  destruct (Z.max 0 i =? KettlerUSB.power s); reflexivity.
Qed.

Lemma set_power_same power s i :
  Py.int power = Ok i -> KettlerUSB.power s = Z.max 0 i ->
  set_power power s = Ok s.
Proof.
  intros H Hp. rewrite (set_power_ok _ _ _ H), Hp, Z.eqb_refl. reflexivity.
Qed.

(** C9: [set_power w] clamps [int(w)] to at least 0 and marks a write as
    pending only when the clamped value differs from the last requested one;
    a second call with the same [w] changes nothing, also when the pending
    write of the first call has been sent in between, so the two calls
    cause at most one [PW] command.  A [w] that has no integer value (NaN,
    infinity) raises before anything is stored. *)
Theorem set_power_idempotent (w : num) (s : t) :
  match Py.int w with
  | Raise e => set_power w s = Raise e
  | Ok i =>
      let p := Z.max 0 i in
      0 <= p
      /\ (p <> power s -> set_power w s = Ok (mk (port_open s) true p))
      /\ (p = power s -> set_power w s = Ok s)
      /\ (forall s1, set_power w s = Ok s1 ->
            power s1 = p
            /\ set_power w s1 = Ok s1
            /\ set_power w (fst (poll_once s1)) = Ok (fst (poll_once s1))
            /\ write_power (fst (poll_once s1)) = false)
  end.
Proof.
  destruct (Py.int w) as [i|e] eqn:H.
  2:{ unfold set_power. now rewrite H. }
  intro p. rewrite (set_power_ok _ _ _ H). fold p.
  split; [lia|]. split; [|split].
  - intro Hne. apply Z.eqb_neq in Hne. now rewrite Hne.
  - intro He. apply Z.eqb_eq in He. now rewrite He.
  - intros s1 Hs1.
    assert (Hp : power s1 = p).
    { destruct (p =? power s) eqn:E; inversion Hs1; subst s1.
      - symmetry. now apply Z.eqb_eq.
      - reflexivity. }
    split; [exact Hp|]. split; [now apply (set_power_same _ _ i)|]. split.
    + apply (set_power_same _ _ i); [exact H|].
      unfold poll_once. destruct (write_power s1); exact Hp.
    + unfold poll_once. destruct (write_power s1) eqn:E; [reflexivity | exact E].
Qed.

Lemma set_power_idempotent_witness :
  set_power (Float 310.1) init = Ok (mk false true 310)
  /\ set_power (Float 310.1) (mk false true 310) = Ok (mk false true 310).
Proof.
  pose proof (set_power_idempotent (Float 310.1) init) as H.
  change (Py.int (Float 310.1)) with (@Ok Z 310) in H.
  destruct H as (_ & Hfirst & _ & Hagain).
  split.
  - apply Hfirst. discriminate.
  - apply (Hagain (mk false true 310)). apply Hfirst. discriminate.
Defined.

(** *** Status telegrams *)

Lemma truthy_false d :
  Sample.truthy d = false <->
  Sample.speed d = None /\ Sample.power d = None /\ Sample.targetPower d = None
  /\ Sample.cadence d = None /\ Sample.rpm d = None /\ Sample.hr d = None.
Proof.
  destruct d as [[?|] [?|] [?|] [?|] [?|] [?|]]; cbn; split;
    try discriminate; try tauto;
    intros (? & ? & ? & ? & ? & ?); discriminate.
Qed.

(** C4: on a line of exactly 8 tab separated fields the sample takes heart
    rate from field 1, cadence and rpm from field 2, speed from field 3
    times 0.1, target power from field 5 and power from field 8; a field
    that is not an integer is left out and the others are kept; the sample
    is emitted unless none of the five parsed.  This holds when the speed
    field, if an integer, is within the range of a float.  The telegram of
    the protocol example gives hr 101, cadence and rpm 47, speed 7.4, target
    power 25, power 25.  On a speed field of 400 digits the product raises
    [OverflowError], which no [except] clause of the method catches: no
    sample is emitted although every field parsed. *)
Theorem status_telegram_fields :
  (forall (line f1 f2 f3 f4 f5 f6 f7 f8 : string),
      split tab line = [f1; f2; f3; f4; f5; f6; f7; f8] ->
      (forall n, int_of_str f3 = Some n -> float_of_int n = Ok (of_Z n)) ->
      let d := Sample.mk
                 (option_map (fun n => (of_Z n * 0.1)%float) (int_of_str f3))
                 (int_of_str f8) (int_of_str f5)
                 (int_of_str f2) (int_of_str f2) (int_of_str f1) in
      read_and_dispatch line
      = Ok (if Sample.truthy d then [Emit_data d] else [])
      /\ (read_and_dispatch line = Ok [] <->
          int_of_str f1 = None /\ int_of_str f2 = None /\ int_of_str f3 = None
          /\ int_of_str f5 = None /\ int_of_str f8 = None))
  /\ read_and_dispatch
       (telegram ["101"; "047"; "074"; "002"; "025"; "0312"; "01:12"; "025"]%string)
     = Ok [Emit_data (Sample.mk (Some 7.4%float) (Some 25) (Some 25)
                                (Some 47) (Some 47) (Some 101))]
  /\ (int_of_str long_speed = Some (10 ^ 400 - 1)
      /\ read_and_dispatch
           (telegram ["101"; "047"; long_speed; "002"; "025"; "0312";
                      "01:12"; "025"]%string)
         = Raise OverflowError).
Proof.
  split; [|vm_compute; repeat split].
  intros line f1 f2 f3 f4 f5 f6 f7 f8 Hsplit Hrange d.
  assert (Hrun : read_and_dispatch line
                 = Ok (if Sample.truthy d then [Emit_data d] else [])).
  { unfold read_and_dispatch. rewrite Hsplit.
    cbn [List.length Nat.eqb field nth].
    destruct (int_of_str f3) as [n|] eqn:E3; subst d;
      [rewrite (Hrange n eq_refl)|]; cbn [bind option_map];
      destruct (Sample.truthy _); reflexivity. }
  split; [exact Hrun|].
  rewrite Hrun. split.
  - intro H. destruct (Sample.truthy d) eqn:Ht; [discriminate H|].
    apply truthy_false in Ht. cbn in Ht.
    destruct Ht as (H3 & H8 & H5 & H2 & _ & H1).
    destruct (int_of_str f3); [discriminate H3|]. tauto.
  - intros (H1 & H2 & H3 & H5 & H8).
    subst d. rewrite H1, H2, H3, H5, H8. reflexivity.
Qed.

Lemma status_telegram_fields_witness :
  read_and_dispatch
    (telegram ["x"; "60"; "300"; "0"; "150"; "0"; "00:00"; "-"]%string)
  = Ok [Emit_data (Sample.mk (Some (300 * 0.1)%float) None (Some 150)
                             (Some 60) (Some 60) None)].
Proof.
  destruct status_telegram_fields as [H _].
  refine (proj1 (H (telegram ["x"; "60"; "300"; "0"; "150"; "0"; "00:00"; "-"])
                   "x" "60" "300" "0" "150" "0" "00:00" "-" eq_refl _))%string.
  intros n Hn. vm_compute in Hn. inversion Hn. reflexivity.
Defined.

End KettlerUSBSpec.

(* ================================================================== *)
(** ** Properties of the control point *)
(* ================================================================== *)

Module ControlPointSpec.
Import Py KettlerBLE Expected.

(** Enter the branch of the handler for the opcode byte [b], of value [n],
    with [Hs] telling whether the bridge is under control. *)
Ltac enter_opcode b n Hs :=
  unfold _handle_control_point_write;
  change (byte_val b) with n; cbn [Z.eqb Pos.eqb];
  rewrite Hs.

Lemma byte_val_range b : 0 <= byte_val b < 256.
Proof.
  unfold byte_val. pose proof (Byte.to_N_bounded b). lia.
Qed.

Lemma unpack_H_sum b0 b1 :
  0 <= b0 < 256 -> unpack_H b0 b1 = b0 + 256 * b1.
Proof.
  intro Hb0. unfold unpack_H.
  assert (Hdisjoint : Z.land b0 (Z.shiftl b1 8) = 0).
  { apply Z.bits_inj'. intros n Hn.
    rewrite Z.land_spec, Z.bits_0.
    destruct (Z.ltb_spec n 8) as [Hlow|Hhigh].
    - rewrite (Z.shiftl_spec_low b1 8 n Hlow). apply andb_false_r.
    - rewrite <- (Z.mod_small b0 (2 ^ 8)) by (change (2 ^ 8) with 256; lia).
      rewrite Z.mod_pow2_bits_high by lia. reflexivity. }
  rewrite <- (Z.lxor_lor _ _ Hdisjoint), <- (Z.add_nocarry_lxor _ _ Hdisjoint).
  rewrite Z.shiftl_mul_pow2 by lia. change (2 ^ 8) with 256. lia.
Qed.

Lemma callback_power p w :
  exists w',
    Server.ble_control_callback (Power p) w = (w', Ok true)
    /\ BikeState.target_power (Server.bike_state w') = Some p
    /\ BikeState.mode (Server.bike_state w') = BikeState.ERG
    /\ KettlerUSB.power (Server.kettler_usb w') = Z.max 0 p.
Proof.
  unfold Server.ble_control_callback, BikeState.set_target_power.
  cbn [Py.int Server.settle Server.dispatch Server.on_event
       Server.with_bike_state Server.bike_state Server.kettler_usb
       Server.dashboard Server.serial Server.with_kettler_usb].
  unfold KettlerUSB.set_power. cbn [Py.int bind].
  destruct (Z.max 0 p =? KettlerUSB.power (Server.kettler_usb w)) eqn:E;
    cbn [Server.returns Server.with_kettler_usb Server.bike_state
         Server.kettler_usb Server.dashboard Server.serial];
    eexists; repeat split.
  - cbn. symmetry. now apply Z.eqb_eq.
Qed.

(** C1 as the spec words it fails: the forwarded value would be the SIGNED
    reading of bytes 1 and 2. *)
Lemma target_power_not_signed :
  ~ (forall (b1 b2 : Byte.byte) (rest : list Byte.byte)
            (s : KettlerBLE.t) (w : Server.world),
        under_control s = true ->
        BikeState.target_power
          (Server.bike_state
             (snd (fst (Server.control_point_write
                          (Byte.x05 :: b1 :: b2 :: rest) s w))))
        = Some (unpack_h (byte_val b1) (byte_val b2))).
Proof.
  intro H.
  specialize (H Byte.xff Byte.xff [] (with_under_control true (init 0))
                Server.init eq_refl).
  vm_compute in H. discriminate H.
Qed.

(** C1, amended: for every write of opcode 0x05 with at least 3 bytes,
    received while under control, the value handed to the callback, and by
    the server to [set_target_power], is the little-endian 16-bit UNSIGNED
    integer of bytes 1 and 2 (byte 1 plus 256 times byte 2, between 0 and
    65535); the answer is 0x01 when the callback accepts, 0x04 when it
    declines. *)
Theorem target_power_unsigned :
  (forall (E : Type) (cb : message -> E -> E * result bool)
          (b1 b2 : Byte.byte) (rest : list Byte.byte) (s : t) (e : E),
      under_control s = true ->
      let power := byte_val b1 + 256 * byte_val b2 in
      0 <= power <= 65535
      /\ _handle_control_point_write (Some cb)
           (Byte.x05 :: b1 :: b2 :: rest) s e
         = (s, fst (cb (Power power) e),
            match snd (cb (Power power) e) with
            | Ok true => _send_control_point_response 5 RESULT_SUCCESS s
            | Ok false => _send_control_point_response 5 RESULT_OPERATION_FAILED s
            | Raise _ => []
            end))
  /\ (forall (b1 b2 : Byte.byte) (rest : list Byte.byte)
             (s : t) (w : Server.world),
        under_control s = true ->
        let r := Server.control_point_write (Byte.x05 :: b1 :: b2 :: rest) s w in
        let power := byte_val b1 + 256 * byte_val b2 in
        BikeState.target_power (Server.bike_state (snd (fst r))) = Some power
        /\ BikeState.mode (Server.bike_state (snd (fst r))) = BikeState.ERG
        /\ fst (fst r) = s
        /\ snd r = _send_control_point_response 5 RESULT_SUCCESS s).
Proof.
  assert (Hgen : forall (E : Type) (cb : message -> E -> E * result bool)
                        b1 b2 rest s e,
             under_control s = true ->
             _handle_control_point_write (Some cb)
               (Byte.x05 :: b1 :: b2 :: rest) s e
             = (s, fst (cb (Power (byte_val b1 + 256 * byte_val b2)) e),
                match snd (cb (Power (byte_val b1 + 256 * byte_val b2)) e) with
                | Ok true => _send_control_point_response 5 RESULT_SUCCESS s
                | Ok false =>
                    _send_control_point_response 5 RESULT_OPERATION_FAILED s
                | Raise _ => []
                end)).
  { intros E cb b1 b2 rest s e Hs.
    enter_opcode Byte.x05 5 Hs. unfold byte_at. cbn [List.length Nat.leb guarded_call nth].
    rewrite (unpack_H_sum _ _ (byte_val_range b1)).
    destruct (cb (Power (byte_val b1 + 256 * byte_val b2)) e) as [e' [[|]|x]];
      reflexivity. }
  split.
  - intros E cb b1 b2 rest s e Hs power. split.
    + pose proof (byte_val_range b1). pose proof (byte_val_range b2).
      subst power. lia.
    + apply Hgen, Hs.
  - intros b1 b2 rest s w Hs r power. subst r.
    unfold Server.control_point_write. rewrite (Hgen _ _ _ _ _ _ _ Hs).
    fold power.
    destruct (callback_power power w) as (w' & Hcb & Htp & Hmode & _).
    rewrite Hcb. cbn [fst snd]. repeat split; assumption.
Qed.

(** C2: a write of opcode 0x05 shorter than 3 bytes while under control is
    answered [0x80, 0x05, 0x03]; a write of opcode 0x05 without control is
    answered [0x80, 0x05, 0x05]; a write of opcode 0x00 while under control
    is answered [0x80, 0x00, 0x01]; each leaves the bridge and everything
    behind the callback as it was.  The answer is the indication set on the
    control point characteristic, which is there once a central has
    subscribed.  From the initial, unauthorized state with a subscriber, the
    session 0x05, 0x00, 0x05, 0x00 is answered 0x05, 0x01, 0x03, 0x01. *)
Theorem control_point_result_codes :
  (forall (E : Type) (cb : option (message -> E -> E * result bool))
          (params : list Byte.byte) (s : t) (e : E),
      under_control s = true -> (List.length params < 2)%nat ->
      _handle_control_point_write cb (Byte.x05 :: params) s e
      = (s, e, _send_control_point_response 0x05 0x03 s))
  /\ (forall (E : Type) (cb : option (message -> E -> E * result bool))
             (params : list Byte.byte) (s : t) (e : E),
        under_control s = false ->
        _handle_control_point_write cb (Byte.x05 :: params) s e
        = (s, e, _send_control_point_response 0x05 0x05 s))
  /\ (forall (E : Type) (cb : option (message -> E -> E * result bool))
             (params : list Byte.byte) (s : t) (e : E),
        under_control s = true ->
        _handle_control_point_write cb (Byte.x00 :: params) s e
        = (s, e, _send_control_point_response 0x00 0x01 s))
  /\ (forall (opcode result_code : Z) (s : t) (c : characteristic),
        control_point_char s = Some c ->
        _send_control_point_response opcode result_code s
        = [Set_control_point [0x80; opcode; result_code]])
  /\ (let s0 := _control_point_indicate_callback true (mkChar true) (init 0) in
      under_control s0 = false
      /\ control_point_session
           [[Byte.x05; Byte.x64]; [Byte.x00]; [Byte.x05; Byte.x64]; [Byte.x00]]
           s0 Server.init
         = (with_under_control true s0, Server.init,
            [Set_control_point [0x80; 0x05; 0x05];
             Set_control_point [0x80; 0x00; 0x01];
             Set_control_point [0x80; 0x05; 0x03];
             Set_control_point [0x80; 0x00; 0x01]])).
Proof.
  repeat split.
  - intros E cb params s e Hs Hlen. enter_opcode Byte.x05 5 Hs.
    destruct params as [|b1 [|b2 rest]]; cbn in Hlen; try lia; reflexivity.
  - intros E cb params s e Hs. enter_opcode Byte.x05 5 Hs. reflexivity.
  - intros E cb params s e Hs. enter_opcode Byte.x00 0 Hs. reflexivity.
  - intros opcode result_code s c Hc. unfold _send_control_point_response.
    rewrite Hc. reflexivity.
Qed.

Lemma control_point_result_codes_witness :
  _handle_control_point_write (Some Server.ble_control_callback)
    [Byte.x05; Byte.x64] (with_under_control true (init 0)) Server.init
  = (with_under_control true (init 0), Server.init, []).
Proof.
  destruct control_point_result_codes as (Hshort & _).
  apply (Hshort _ (Some Server.ble_control_callback) [Byte.x64]
                (with_under_control true (init 0)) Server.init eq_refl).
  cbn. lia.
Defined.

Lemma target_power_unsigned_witness :
  BikeState.target_power
    (Server.bike_state
       (snd (fst (Server.control_point_write
                    [Byte.x05; Byte.xc8; Byte.x00]
                    (with_under_control true (init 0)) Server.init))))
  = Some 200.
Proof.
  destruct target_power_unsigned as [_ H].
  exact (proj1 (H Byte.xc8 Byte.x00 [] (with_under_control true (init 0))
                  Server.init eq_refl)).
Defined.

End ControlPointSpec.

(* ================================================================== *)
(** ** Properties of the Cycling Power characteristic *)
(* ================================================================== *)

Module CyclingPowerSpec.
Import Py KettlerBLE Expected.

Lemma le16_bytes v : le16 v = [v mod 256; (v / 256) mod 256].
Proof.
  unfold le16. change 255 with (Z.ones 8).
  rewrite !Z.land_ones by lia. rewrite Z.shiftr_div_pow2 by lia.
  reflexivity.
Qed.

Lemma mask16 v : Z.land v 0xFFFF = v mod 65536.
Proof. change 0xFFFF with (Z.ones 16). now rewrite Z.land_ones by lia. Qed.

Lemma pack_h_ok v : -32768 <= v <= 32767 -> pack_h v = Ok (le16 v).
Proof.
  intro H. unfold pack_h.
  destruct (Z.leb_spec (-32768) v), (Z.leb_spec v 32767); try lia; reflexivity.
Qed.

Lemma floor_is_int x : negative x = false -> floor_of_float x = int_of_float x.
Proof.
  unfold negative, floor_of_float, int_of_float.
  destruct (Prim2SF x) as [| | |[|] m e]; try reflexivity; discriminate.
Qed.

(** *** Frame: samples without power *)

Lemma indoor_bike_frame d s :
  let r := _update_indoor_bike_data d s in
  crank_revolutions (fst r) = crank_revolutions s
  /\ last_event_time (fst r) = last_event_time s
  /\ last_update_timestamp (fst r) = last_update_timestamp s
  /\ cycling_power_data (fst r) = cycling_power_data s
  /\ cycling_power_char (fst r) = cycling_power_char s
  /\ (forall v, ~ In (Set_cycling_power v) (snd r)).
Proof.
  unfold _update_indoor_bike_data.
  destruct (indoor_bike_buffer d) as [buffer|x]; cbn.
  - repeat split; try reflexivity. intros v.
    destruct (notifying (indoor_bike_char s)); cbn; intuition discriminate.
  - repeat split; try reflexivity. intros v H; exact H.
Qed.

Lemma cycling_power_timestamp now d s :
  last_update_timestamp (fst (_update_cycling_power now d s)) = now.
Proof.
  unfold _update_cycling_power.
  destruct (float_of_int _); [|reflexivity].
  destruct (int_of_float _); [|reflexivity].
  destruct (int_of_float _); [|reflexivity].
  destruct (pack_h _); reflexivity.
Qed.

(** C10: a sample without a power field leaves the Cycling Power state as
    it was (cumulative crank revolutions, event time ticks, time stamp of
    the last update, stored measurement bytes) and pushes no Cycling Power
    notification, whatever its other fields; a sample with a power field
    moves the time stamp to the clock reading: the crank counter advances
    per power-bearing sample, not per sample. *)
Theorem no_power_no_cycling_power_update :
  (forall (now : float) (d : Sample.t) (s : t),
      Sample.power d = None ->
      let r := notify_ftms now d s in
      crank_revolutions (fst r) = crank_revolutions s
      /\ last_event_time (fst r) = last_event_time s
      /\ last_update_timestamp (fst r) = last_update_timestamp s
      /\ cycling_power_data (fst r) = cycling_power_data s
      /\ (forall v, ~ In (Set_cycling_power v) (snd r)))
  /\ (forall (now : float) (d : Sample.t) (s : t) (p : Z),
        Sample.power d = Some p ->
        last_update_timestamp (fst (notify_ftms now d s)) = now).
Proof.
  split.
  - intros now d s Hp r. subst r. unfold notify_ftms. rewrite Hp.
    destruct (Sample.truthy d); cbn [negb].
    + cbn [Sample.is_some]. rewrite orb_false_r.
      destruct (Sample.is_some (Sample.speed d) || Sample.is_some (Sample.rpm d)).
      * pose proof (indoor_bike_frame d s) as H. cbn zeta in H.
        destruct (_update_indoor_bike_data d s) as [s1 p1].
        cbn [fst snd] in *. rewrite app_nil_r.
        destruct H as (Hc & He & Ht & Hd & _ & Hn). repeat split; assumption.
      * cbn. repeat split; try reflexivity. intros v H; exact H.
    + cbn. repeat split; try reflexivity. intros v H; exact H.
  - intros now d s p Hp. unfold notify_ftms.
    assert (Ht : Sample.truthy d = true).
    { unfold Sample.truthy. rewrite Hp. cbn [Sample.is_some].
      now rewrite !orb_true_r. }
    rewrite Ht, Hp. cbn [negb Sample.is_some]. rewrite !orb_true_r.
    destruct (_update_indoor_bike_data d s) as [s1 p1].
    pose proof (cycling_power_timestamp now d s1) as H.
    destruct (_update_cycling_power now d s1) as [s2 p2]. exact H.
Qed.

Lemma no_power_no_cycling_power_update_witness :
  let r := notify_ftms 5
             (Sample.mk (Some 7.4%float) None None (Some 47) (Some 47) (Some 101))
             (init 0) in
  last_update_timestamp (fst r) = 0%float
  /\ cycling_power_data (fst r) = repeat 0 8.
Proof.
  destruct no_power_no_cycling_power_update as [H _].
  destruct (H 5%float
              (Sample.mk (Some 7.4%float) None None (Some 47) (Some 47) (Some 101))
              (init 0) eq_refl) as (_ & _ & Hts & Hdata & _).
  split; [exact Hts | exact Hdata].
Defined.

(** *** The crank counter *)

(** Rounding a product keeps the sign it is given. *)
Lemma round_aux_sign sx mx ex lx sy my ey :
  binary_round_aux prec emax sx mx ex lx = S754_finite sy my ey -> sy = sx.
Proof.
  unfold binary_round_aux.
  destruct (shr_fexp prec emax mx ex lx) as [mrs' e'].
  destruct (shr_fexp prec emax _ e' loc_Exact) as [mrs'' e''].
  destruct (shr_m mrs''); try discriminate.
  destruct (e'' <=? emax - prec); try discriminate.
  intros H; injection H; auto.
Qed.

(** An elapsed time that is not negative has a tick count that is not. *)
Lemma scaled_not_negative (x : float) :
  negative x = false -> negative (x * 1024) = false.
Proof.
  unfold negative. rewrite mul_spec.
  change (Prim2SF 1024) with (S754_finite false 4503599627370496 (-42)).
  destruct (Prim2SF x) as [s|s| |s m e]; try reflexivity.
  destruct s; [discriminate|]. intros _.
  unfold SF64mul, SFmul. cbn [xorb].
  destruct (binary_round_aux _ _ _ _ _ _) as [s'|s'| |s' m' e'] eqn:Hr;
    try reflexivity.
  apply round_aux_sign in Hr. subst. reflexivity.
Qed.

(** The counters after an update whose conversions succeed, whatever
    happens when the measurement is packed. *)
Lemma cycling_power_counters now d s r ticks :
  float_of_int (Sample.get (Sample.rpm d) 0) = Ok r ->
  int_of_float ((now - last_update_timestamp s) * 1024) = Ok ticks ->
  let s' := fst (_update_cycling_power now d s) in
  crank_revolutions s'
  = (crank_revolutions s + r / 60 * (now - last_update_timestamp s))%float
  /\ last_event_time s' = last_event_time s + ticks
  /\ last_update_timestamp s' = now.
Proof.
  intros Hr Hticks. unfold _update_cycling_power. cbn zeta.
  rewrite Hr.
  cbn [last_update_timestamp crank_revolutions last_event_time
       cycling_power_char with_last_update_timestamp
       with_crank_revolutions with_last_event_time].
  rewrite Hticks.
  cbn [last_update_timestamp crank_revolutions last_event_time
       cycling_power_char with_last_update_timestamp
       with_crank_revolutions with_last_event_time].
  destruct (int_of_float (crank_revolutions s + _)); [|cbn; repeat split].
  destruct (pack_h _); cbn; repeat split.
Qed.

(** Outside that reading of the elapsed time: when the clock reading is
    1/2048 s earlier than the last update (cadence 90, counters at zero),
    the tick count is truncated toward zero, where rounding down gives -1,
    and the encoded revolutions are 0, where rounding down gives 65535. *)
Lemma clock_step_back_truncates :
  let d := Sample.mk None (Some 25) None (Some 90) (Some 90) None in
  let s := init 1700000000.00048828125 in
  let now := 1700000000%float in
  let s' := fst (_update_cycling_power now d s) in
  negative (now - last_update_timestamp s) = true
  /\ floor_of_float ((now - last_update_timestamp s) * 1024) = Ok (-1)
  /\ last_event_time s' = last_event_time s
  /\ bind (floor_of_float (crank_revolutions s'))
          (fun z => Ok (z mod 65536)) = Ok 65535
  /\ firstn 2 (skipn 4 (cycling_power_data s')) = le16 0.
Proof. vm_compute. repeat split. Qed.

(** C5: an update at clock reading [now], with [dt] the time elapsed since
    the previous update (not negative) and [rpm] the cadence of the sample
    (0 if absent), adds [(rpm / 60) * dt] to the cumulative revolutions as
    a float, with no truncation, and [floor(dt * 1024)] ticks to the event
    time, whatever the power of the sample; when the power fits 16 signed
    bits, the 8 bytes stored are the flags 0x20 0x00, the power,
    [floor(revolutions) mod 65536] for a cumulative count that is not
    negative, and the tick counter [mod 65536], each little-endian on 16
    bits, low byte first.  With rpm 90 and one second the revolutions grow
    by exactly 1.5. *)
Theorem cycling_power_step :
  (forall (now : float) (d : Sample.t) (s : t) (r : float) (ticks : Z),
      let rpm := Sample.get (Sample.rpm d) 0 in
      let dt := (now - last_update_timestamp s)%float in
      let total := (crank_revolutions s + r / 60 * dt)%float in
      float_of_int rpm = Ok r ->
      negative dt = false ->
      floor_of_float (dt * 1024) = Ok ticks ->
      let s' := fst (_update_cycling_power now d s) in
      crank_revolutions s' = total
      /\ last_event_time s' = last_event_time s + ticks
      /\ last_update_timestamp s' = now)
  /\ (forall (now : float) (d : Sample.t) (s : t) (r : float) (ticks revs : Z),
        let rpm := Sample.get (Sample.rpm d) 0 in
        let power := Sample.get (Sample.power d) 0 in
        let dt := (now - last_update_timestamp s)%float in
        let total := (crank_revolutions s + r / 60 * dt)%float in
        float_of_int rpm = Ok r ->
        negative dt = false ->
        floor_of_float (dt * 1024) = Ok ticks ->
        negative total = false ->
        floor_of_float total = Ok revs ->
        -32768 <= power <= 32767 ->
        let s' := fst (_update_cycling_power now d s) in
        cycling_power_data s'
        = [0x20; 0x00] ++ le16 power ++ le16 (revs mod 65536)
          ++ le16 ((last_event_time s + ticks) mod 65536)
        /\ snd (_update_cycling_power now d s)
           = if notifying (cycling_power_char s)
             then [Set_cycling_power (cycling_power_data s')] else [])
  /\ (forall v : Z, le16 v = [v mod 256; (v / 256) mod 256])
  /\ (of_Z 90 / 60 * 1 = 1.5)%float
  /\ (let d := Sample.mk None (Some 25) None (Some 90) (Some 90) None in
      let s' := fst (_update_cycling_power 1 d (init 0)) in
      crank_revolutions s' = 1.5%float
      /\ last_event_time s' = 1024
      /\ cycling_power_data s' = [0x20; 0x00; 25; 0; 1; 0; 0; 4]).
Proof.
  split; [|split; [|split; [exact le16_bytes |]]].
  - intros now d s r ticks rpm dt total Hr Hdt Hticks.
    rewrite (floor_is_int _ (scaled_not_negative _ Hdt)) in Hticks.
    exact (cycling_power_counters now d s r ticks Hr Hticks).
  - intros now d s r ticks revs rpm power dt total Hr Hdt Hticks Htot Hrevs
           Hpower s'.
    rewrite (floor_is_int _ (scaled_not_negative _ Hdt)) in Hticks.
    rewrite (floor_is_int _ Htot) in Hrevs.
    subst s'. unfold _update_cycling_power. cbn zeta.
    fold rpm. rewrite Hr.
    cbn [last_update_timestamp crank_revolutions last_event_time
         cycling_power_char with_last_update_timestamp
         with_crank_revolutions with_last_event_time].
    fold dt. rewrite Hticks.
    cbn [last_update_timestamp crank_revolutions last_event_time
         cycling_power_char with_last_update_timestamp
         with_crank_revolutions with_last_event_time].
    fold total. rewrite Hrevs. fold power. rewrite (pack_h_ok _ Hpower).
    rewrite !mask16.
    cbn [fst snd crank_revolutions last_event_time last_update_timestamp
         cycling_power_data cycling_power_char with_cycling_power_data].
    repeat split.
  - vm_compute. repeat split.
Qed.

Lemma cycling_power_step_witness :
  let d := Sample.mk None (Some (-3)) None (Some 60) (Some 60) None in
  let s' := fst (_update_cycling_power 2.5 d (init 0)) in
  negative (2.5 - 0) = false
  /\ floor_of_float ((2.5 - 0) * 1024) = Ok 2560
  /\ floor_of_float (0 + 60 / 60 * (2.5 - 0)) = Ok 2
  /\ crank_revolutions s' = (0 + 60 / 60 * (2.5 - 0))%float
  /\ last_event_time s' = 0 + 2560
  /\ cycling_power_data s'
     = [0x20; 0x00] ++ le16 (-3) ++ le16 (2 mod 65536)
       ++ le16 ((0 + 2560) mod 65536).
Proof.
  destruct cycling_power_step as [H1 [H2 _]].
  destruct (H1 2.5%float
              (Sample.mk None (Some (-3)) None (Some 60) (Some 60) None)
              (init 0) 60%float 2560 eq_refl eq_refl eq_refl)
    as (Hc & Ht & _).
  destruct (H2 2.5%float
              (Sample.mk None (Some (-3)) None (Some 60) (Some 60) None)
              (init 0) 60%float 2560 2 eq_refl eq_refl eq_refl eq_refl eq_refl)
    as (Hd & _).
  - cbn. lia.
  - split; [reflexivity|]. split; [reflexivity|]. split; [reflexivity|].
    split; [exact Hc|]. split; [exact Ht | exact Hd].
Defined.

End CyclingPowerSpec.

(* ================================================================== *)
(** ** Properties of the SIM physics *)
(* ================================================================== *)

Module SimPhysicsSpec.
Import Py BikeState Expected.

Lemma compute_sim s d ext :
  mode s = SIM -> data s = Some d -> external s = Some ext ->
  compute s
  = bind (simulate d ext (gear s)) (fun p => Ok [Emit_simpower (Float p)]).
Proof.
  intros Hm Hd He. unfold compute. now rewrite Hm, Hd, He.
Qed.

Lemma set_data_then_compute d s :
  exists s1 evs,
    data s1 = Some d /\ mode s1 = mode s /\ external s1 = external s
    /\ gear s1 = gear s
    /\ (forall p, ~ In (Emit_simpower p) evs)
    /\ set_data d s
       = match compute s1 with
         | Ok evs' => (s1, (evs ++ evs')%list, None)
         | Raise e => (s1, evs, Some e)
         end.
Proof.
  unfold set_data. cbn [with_data target_power].
  destruct (target_power s) as [tp|], (Sample.targetPower d) as [tp'|].
  all: eexists; eexists.
  all: split; [|split; [|split; [|split; [|split; [|reflexivity]]]]].
  all: try reflexivity.
  all: cbn; intuition discriminate.
Qed.

(** C3: in SIM mode, with a sample and external conditions, [compute] emits
    one [simpower] event whose value is
    [round(max(0, 170 * (1 + 1.15*(rpm-80)/80) * (1 + 3*grade/100)
                  * (1 + 0.1*(gear-5))), 1)],
    each operation a float operation and the only rounding to a decimal the
    last step; so does [set_data] on a sample, as the last event it emits;
    rpm is 80 when the sample has none; rpm, gear offset (and an int grade,
    tripled) are taken within the range of a float.  rpm 80, grade 0, gear 5
    give 170.0; rpm 100, grade 3, gear 8 give 310.1; rpm 120, grade 20,
    gear 20 give 1071.0, above 1000. *)
Theorem sim_power_formula :
  (forall (s : t) (d : Sample.t) (ext : ExternalConditions) (r g k : float),
      mode s = SIM -> data s = Some d -> external s = Some ext ->
      float_of_int (Sample.get (Sample.rpm d) 80) = Ok r ->
      grade ext = Float g ->
      float_of_int (gear s - 5) = Ok k ->
      compute s
      = Ok [Emit_simpower
              (Float (round1 (max0 (170 * (1 + 1.15 * (r - 80) / 80)
                                    * (1 + 3 * g / 100)
                                    * (1 + 0.1 * k)))%float))])
  /\ (forall (s : t) (d : Sample.t) (ext : ExternalConditions)
             (r g3 k : float) (g : Z),
        mode s = SIM -> data s = Some d -> external s = Some ext ->
        float_of_int (Sample.get (Sample.rpm d) 80) = Ok r ->
        grade ext = Int g -> float_of_int (3 * g) = Ok g3 ->
        float_of_int (gear s - 5) = Ok k ->
        compute s
        = Ok [Emit_simpower
                (Float (round1 (max0 (170 * (1 + 1.15 * (r - 80) / 80)
                                      * (1 + g3 / 100)
                                      * (1 + 0.1 * k)))%float))])
  /\ (forall (s : t) (d : Sample.t) (ext : ExternalConditions) (r g k : float),
        mode s = SIM -> external s = Some ext ->
        float_of_int (Sample.get (Sample.rpm d) 80) = Ok r ->
        grade ext = Float g ->
        float_of_int (gear s - 5) = Ok k ->
        exists s1 evs,
          (forall p, ~ In (Emit_simpower p) evs)
          /\ set_data d s
             = (s1,
                (evs ++
                 [Emit_simpower
                    (Float (round1 (max0 (170 * (1 + 1.15 * (r - 80) / 80)
                                          * (1 + 3 * g / 100)
                                          * (1 + 0.1 * k)))%float))])%list,
                None))
  /\ (forall d : Sample.t,
        Sample.rpm d = None ->
        float_of_int (Sample.get (Sample.rpm d) 80) = Ok 80%float)
  /\ compute (sim_state (Some 80) (Int 0) 5)
     = Ok [Emit_simpower (Float 170)]
  /\ compute (sim_state (Some 80) (Float 0) 5)
     = Ok [Emit_simpower (Float 170)]
  /\ compute (sim_state (Some 100) (Int 3) 8)
     = Ok [Emit_simpower (Float 310.1)]
  /\ compute (sim_state (Some 100) (Float 3) 8)
     = Ok [Emit_simpower (Float 310.1)]
  /\ compute (sim_state None (Float 0) 5)
     = Ok [Emit_simpower (Float 170)]
  /\ compute (sim_state (Some 10) (Float 0) 1)
     = Ok [Emit_simpower (Float 0)]
  /\ compute (sim_state (Some 120) (Float 20) 20)
     = Ok [Emit_simpower (Float 1071)].
Proof.
  assert (Hfloat : forall s d ext r g k,
             mode s = SIM -> data s = Some d -> external s = Some ext ->
             float_of_int (Sample.get (Sample.rpm d) 80) = Ok r ->
             grade ext = Float g ->
             float_of_int (gear s - 5) = Ok k ->
             compute s
             = Ok [Emit_simpower
                     (Float (round1 (max0 (170 * (1 + 1.15 * (r - 80) / 80)
                                           * (1 + 3 * g / 100)
                                           * (1 + 0.1 * k)))%float))]).
  { intros s d ext r g k Hm Hd He Hr Hg Hk.
    rewrite (compute_sim s d ext Hm Hd He). unfold simulate.
    rewrite Hr, Hg, Hk. reflexivity. }
  split; [exact Hfloat | split; [|split; [|split]]].
  - intros s d ext r g3 k g Hm Hd He Hr Hg Hg3 Hk.
    rewrite (compute_sim s d ext Hm Hd He). unfold simulate.
    rewrite Hr, Hg, Hg3, Hk. reflexivity.
  - intros s d ext r g k Hm He Hr Hg Hk.
    destruct (set_data_then_compute d s)
      as (s1 & evs & Hd1 & Hm1 & He1 & Hg1 & Hnone & Hset).
    exists s1, evs. split; [exact Hnone|].
    rewrite Hset, (Hfloat s1 d ext r g k); try congruence.
  - intros d Hd. rewrite Hd. vm_compute. reflexivity.
  - vm_compute. repeat split.
Qed.

Lemma sim_power_formula_witness :
  compute (sim_state (Some 90) (Float 1.5) 7)
  = Ok [Emit_simpower
          (Float (round1 (max0 (170 * (1 + 1.15 * (90 - 80) / 80)
                                * (1 + 3 * 1.5 / 100)
                                * (1 + 0.1 * 2)))%float))].
Proof.
  destruct sim_power_formula as [H _].
  exact (H (sim_state (Some 90) (Float 1.5) 7) _ _ 90%float 1.5%float 2%float
           eq_refl eq_refl eq_refl eq_refl eq_refl eq_refl).
Defined.

End SimPhysicsSpec.

(* ================================================================== *)
(** ** Further properties of bike_state.py *)
(* ================================================================== *)

Module BikeStateMore.
Import Py BikeState Scenarios.

Lemma set_data_state d s :
  fst (fst (set_data d s))
  = with_target_power
      (match target_power s with
       | Some p => Some p
       | None => Sample.targetPower d
       end)
      (with_data (Some d) s).
Proof.
  unfold set_data. cbn [with_data target_power].
  destruct s as [d0 e m g [tp|]]; cbn [target_power];
    destruct (Sample.targetPower d) as [tp'|];
    match goal with |- context [compute ?x] => destruct (compute x) end;
    reflexivity.
Qed.

Lemma perform_keeps c s :
  let s' := fst (fst (perform c s)) in
  (1 <= gear s <= 20 -> 1 <= gear s' <= 20)
  /\ ((mode s = SIM -> external s <> None) ->
      mode s' = SIM -> external s' <> None)
  /\ (target_power s <> None -> target_power s' <> None).
Proof.
  destruct c as [ | | d | n | | | power | increment | w g cr cd]; cbn [perform].
  - cbn. repeat split; try tauto; intros; discriminate.
  - cbn. tauto.
  - rewrite set_data_state. cbn. repeat split; try tauto.
    destruct (target_power s); [intros; discriminate | tauto].
  - cbn. unfold MIN_GEAR, MAX_GEAR. repeat split; try tauto; lia.
  - cbn. unfold MIN_GEAR, MAX_GEAR. repeat split; try tauto; lia.
  - cbn. unfold MIN_GEAR, MAX_GEAR. repeat split; try tauto; lia.
  - unfold set_target_power. destruct (Py.int power); cbn;
      repeat split; try tauto; intros; discriminate.
  - cbn. repeat split; try tauto; intros; discriminate.
  - unfold set_external_condition.
    destruct w;
      try match goal with
          | |- context [float_of_int ?x] => destruct (float_of_int x)
          end;
      cbn; repeat split; try tauto; intros; discriminate.
Qed.

(** X1: whatever methods are called on a fresh [BikeState], in whatever
    order and with whatever arguments (calls that raise included), the gear
    stays within 1..20 and SIM mode never occurs without external
    conditions, so the guard of [compute] on missing conditions is never
    the one that stops it. *)
Theorem bike_state_invariants (cs : list call) :
  let s := after cs init in
  1 <= gear s <= 20 /\ (mode s = SIM -> external s <> None).
Proof.
  assert (H : forall cs s,
             1 <= gear s <= 20 -> (mode s = SIM -> external s <> None) ->
             1 <= gear (after cs s) <= 20
             /\ (mode (after cs s) = SIM -> external (after cs s) <> None)).
  { clear cs. induction cs as [|c rest IH]; intros s Hg Hm; cbn [after].
    - split; assumption.
    - destruct (perform_keeps c s) as (Kg & Km & _).
      apply IH; [apply Kg, Hg | apply Km, Hm]. }
  apply H; cbn; [lia | discriminate].
Qed.

(** X2: a target power, once set, is never unset again by any sequence of
    calls, [restart] included. *)
Theorem target_power_stays_set (cs : list call) (s : t) :
  target_power s <> None -> target_power (after cs s) <> None.
Proof.
  revert s. induction cs as [|c rest IH]; intros s H; cbn [after].
  - exact H.
  - apply IH. destruct (perform_keeps c s) as (_ & _ & K). apply K, H.
Qed.

Lemma target_power_stays_set_witness :
  target_power
    (after [Restart; Set_external_condition (Int 0) (Int 3) (Float 0.005) (Float 0.39)]
           (fst (add_power 20 init)))
  <> None.
Proof.
  apply (target_power_stays_set
           [Restart; Set_external_condition (Int 0) (Int 3) (Float 0.005) (Float 0.39)]
           (fst (add_power 20 init))).
  discriminate.
Defined.

(** X3: the target power reported by the bike is adopted once: over any
    sequence of samples a target power that is set stays what it is, and an
    unset one becomes the value of the first sample that carries one
    (however the calls end, also when [compute] raises). *)
Theorem hardware_target_latched_once (ds : list Sample.t) (s : t) :
  target_power (after (map Set_data ds) s)
  = match target_power s with
    | Some p => Some p
    | None => first_target ds
    end.
Proof.
  revert s. induction ds as [|d rest IH]; intro s; cbn [map after first_target].
  - destruct (target_power s); reflexivity.
  - rewrite IH. cbn [perform]. rewrite set_data_state.
    cbn [target_power with_target_power].
    destruct (target_power s); [reflexivity|].
    destruct (Sample.targetPower d); reflexivity.
Qed.

(** X4: in ERG mode, or without external conditions, a sample never leads
    to a [simpower] event and [set_data] never raises: the only event it can
    emit is the one [targetPower] of the latch. *)
Theorem no_simulation_outside_sim (d : Sample.t) (s : t) :
  mode s = ERG \/ external s = None ->
  snd (set_data d s) = None
  /\ (snd (fst (set_data d s)) = []
      \/ exists tp, target_power s = None /\ Sample.targetPower d = Some tp
                    /\ snd (fst (set_data d s)) = [Emit_targetPower tp]).
Proof.
  intro H. unfold set_data. cbn [with_data target_power].
  assert (Hc : forall tp, compute (with_target_power tp (with_data (Some d) s)) = Ok []).
  { intro tp. unfold compute. cbn. destruct H as [H|H]; rewrite H; [reflexivity|].
    destruct (mode s); reflexivity. }
  destruct (target_power s) as [p|] eqn:Ht.
  - assert (Hs : with_data (Some d) s = with_target_power (Some p) (with_data (Some d) s)).
    { destruct s; cbn in *. now rewrite Ht. }
    destruct (Sample.targetPower d); rewrite Hs, Hc; cbn; auto.
  - destruct (Sample.targetPower d) as [tp|] eqn:Hd.
    + rewrite Hc. cbn. split; [reflexivity|]. right. exists tp. auto.
    + assert (Hs : with_data (Some d) s = with_target_power None (with_data (Some d) s)).
      { destruct s; cbn in *. now rewrite Ht. }
      rewrite Hs, Hc. cbn. auto.
Qed.

Lemma no_simulation_outside_sim_witness :
  snd (set_data (Sample.mk None None (Some 25) (Some 60) (Some 60) None) init)
  = None.
Proof.
  exact (proj1 (no_simulation_outside_sim
                  (Sample.mk None None (Some 25) (Some 60) (Some 60) None)
                  init (or_introl eq_refl))).
Defined.

(** X5: steps undo each other inside the range and only there: adding [d]
    and then [-d] restores the state when the target power and the sum are
    within 0..1000; [gear_up] then [gear_down] restores it below gear 20,
    [gear_down] then [gear_up] above gear 1; at gear 20 up then down ends
    on 19, and from target 990 adding 20 then -20 ends on 980. *)
Theorem steps_undo_inside_range :
  (forall (s : t) (tp d : Z),
      target_power s = Some tp -> 0 <= tp <= 1000 -> 0 <= tp + d <= 1000 ->
      fst (add_power (- d) (fst (add_power d s))) = s)
  /\ (forall s : t, 1 <= gear s < 20 -> fst (gear_down (fst (gear_up s))) = s)
  /\ (forall s : t, 1 < gear s <= 20 -> fst (gear_up (fst (gear_down s))) = s)
  /\ (forall s : t, gear s = 20 -> gear (fst (gear_down (fst (gear_up s)))) = 19)
  /\ (forall s : t,
        target_power s = Some 990 ->
        target_power (fst (add_power (-20) (fst (add_power 20 s)))) = Some 980).
Proof.
  repeat split.
  - intros [d0 e m g t0] tp d Ht H1 H2. cbn in Ht. subst t0.
    unfold add_power, with_target_power.
    cbn [fst target_power data external mode gear]. f_equal. f_equal. lia.
  - intros [d0 e m g t0] H. cbn in H.
    unfold gear_up, gear_down, with_gear, MIN_GEAR, MAX_GEAR.
    cbn [fst target_power data external mode gear]. f_equal. lia.
  - intros [d0 e m g t0] H. cbn in H.
    unfold gear_up, gear_down, with_gear, MIN_GEAR, MAX_GEAR.
    cbn [fst target_power data external mode gear]. f_equal. lia.
  - intros s H. unfold gear_up, gear_down, MIN_GEAR, MAX_GEAR. cbn. rewrite H.
    reflexivity.
  - intros s H. unfold add_power. cbn. rewrite H. reflexivity.
Qed.

Lemma steps_undo_inside_range_witness :
  fst (gear_down (fst (gear_up init))) = init.
Proof.
  destruct steps_undo_inside_range as (_ & H & _).
  apply H. cbn. lia.
Defined.

End BikeStateMore.

(* ================================================================== *)
(** ** Further properties of kettler_usb.py *)
(* ================================================================== *)

Module KettlerUSBMore.
Import Py KettlerUSB Expected Scenarios.

(** *** Framing *)

Lemma split_nonempty sep s : split sep s <> [].
Proof.
  destruct s as [|c r]; cbn; [discriminate|].
  destruct (Ascii.eqb c sep); [discriminate|].
  destruct (split sep r); discriminate.
Qed.

Lemma split_tab_free f : tab_free f = true -> split tab f = [f].
Proof.
  induction f as [|c r IH]; cbn; [reflexivity|].
  intro H. apply andb_prop in H. destruct H as [Hc Hr].
  apply negb_true_iff in Hc. rewrite Hc, (IH Hr). reflexivity.
Qed.

Lemma split_field_then_tab f rest :
  tab_free f = true ->
  split tab (f ++ String tab rest) = f :: split tab rest.
Proof.
  induction f as [|c r IH]; cbn.
  - intros _. reflexivity.
  - intro H. apply andb_prop in H. destruct H as [Hc Hr].
    apply negb_true_iff in Hc. rewrite Hc, (IH Hr). reflexivity.
Qed.

Lemma split_telegram fields :
  fields <> [] -> forallb tab_free fields = true ->
  split tab (telegram fields) = fields.
Proof.
  unfold telegram.
  induction fields as [|f [|g rest] IH]; intros Hne Hfree.
  - contradiction.
  - cbn in Hfree. rewrite andb_true_r in Hfree. cbn. now apply split_tab_free.
  - cbn [forallb] in Hfree. apply andb_prop in Hfree. destruct Hfree as [Hf Hrest].
    change (String.concat (String tab EmptyString) (f :: g :: rest))
      with (f ++ String tab (String.concat (String tab EmptyString) (g :: rest)))%string.
    rewrite (split_field_then_tab _ _ Hf). f_equal.
    apply IH; [discriminate | exact Hrest].
Qed.

(** X6: fields without tabs, joined by tabs, are read back as they were
    sent; a telegram of four such fields emits the key code of the fourth
    field when it is an integer and nothing otherwise; a telegram of any
    number of fields other than 4 and 8 emits nothing; neither raises. *)
Theorem telegram_framing :
  (forall fields : list string,
      fields <> [] -> forallb tab_free fields = true ->
      split tab (telegram fields) = fields)
  /\ (forall f1 f2 f3 f4 : string,
        forallb tab_free [f1; f2; f3; f4] = true ->
        read_and_dispatch (telegram [f1; f2; f3; f4])
        = Ok match int_of_str f4 with
             | Some key => [Emit_key key]
             | None => []
             end)
  /\ (forall fields : list string,
        fields <> [] -> forallb tab_free fields = true ->
        List.length fields <> 4%nat -> List.length fields <> 8%nat ->
        read_and_dispatch (telegram fields) = Ok []).
Proof.
  split; [exact split_telegram | split].
  - intros f1 f2 f3 f4 Hfree. unfold read_and_dispatch.
    rewrite split_telegram by (exact Hfree || discriminate).
    cbn [List.length Nat.eqb field nth].
    destruct (int_of_str f4); reflexivity.
  - intros fields Hne Hfree H4 H8. unfold read_and_dispatch.
    rewrite (split_telegram fields Hne Hfree).
    apply Nat.eqb_neq in H4, H8. rewrite H4, H8. reflexivity.
Qed.

Lemma telegram_framing_witness :
  read_and_dispatch (telegram ["0"; "0"; "0"; "3"]%string) = Ok [Emit_key 3].
Proof.
  destruct telegram_framing as (_ & H & _).
  exact (H "0" "0" "0" "3" eq_refl)%string.
Defined.

(** X7: a line that does not split into exactly 8 fields never raises and
    never yields a sample: it yields one key event when it has exactly 4
    fields of which the last is an integer, and nothing in every other
    case. *)
Theorem only_status_lines_yield_samples (line : string) :
  List.length (split tab line) <> 8%nat ->
  exists evs,
    read_and_dispatch line = Ok evs
    /\ (forall d, ~ In (Emit_data d) evs)
    /\ (evs = []
        \/ exists key,
             List.length (split tab line) = 4%nat
             /\ int_of_str (field (split tab line) 3) = Some key
             /\ evs = [Emit_key key]).
Proof.
  intro H8. unfold read_and_dispatch.
  apply Nat.eqb_neq in H8. rewrite H8.
  destruct (List.length (split tab line) =? 4)%nat eqn:H4.
  - destruct (int_of_str (field (split tab line) 3)) as [key|] eqn:Hk.
    + exists [Emit_key key]. split; [reflexivity|]. split.
      * intros d [Hd|[]]. discriminate Hd.
      * right. exists key. apply Nat.eqb_eq in H4. auto.
    + exists []. split; [reflexivity|]. split; [intros d []|now left].
  - exists []. split; [reflexivity|]. split; [intros d []|now left].
Qed.

Lemma only_status_lines_yield_samples_witness :
  exists evs,
    read_and_dispatch "garbage"%string = Ok evs
    /\ (forall d, ~ In (Emit_data d) evs).
Proof.
  destruct (only_status_lines_yield_samples "garbage"%string) as (evs & H1 & H2 & _).
  - cbn. discriminate.
  - exists evs. split; assumption.
Defined.

(** *** The poll loop *)

Lemma poll_loop_open n :
  forall s,
    port_open s = true ->
    _poll_loop (S n) s
    = (mk true false (power s),
       (if write_power s then PW (power s) else ST) :: repeat ST n).
Proof.
  induction n as [|n IH]; intros [o wp p] Ho; cbn in Ho; subst o.
  - cbn. destruct wp; reflexivity.
  - change (_poll_loop (S (S n)) (mk true wp p))
      with (let '(s1, c) := poll_once (mk true wp p) in
            let '(s2, cs) := _poll_loop (S n) s1 in (s2, c :: cs)).
    unfold poll_once. cbn [write_power port_open power].
    destruct wp; rewrite IH by reflexivity; reflexivity.
Qed.

(** X8: on an open port the poll loop sends a pending power write exactly
    once, in its first turn, and the status query in every other turn, and
    leaves no write pending; a power requested through [set_power] is
    written only if it differs from the last requested one; of two requests
    made between two turns only the later value is written; on a port that
    is not open the loop sends nothing. *)
Theorem pending_write_sent_once :
  (forall (n : nat) (s : t),
      port_open s = true ->
      _poll_loop (S n) s
      = (mk true false (power s),
         (if write_power s then PW (power s) else ST) :: repeat ST n))
  /\ (forall (n : nat) (s s1 : t) (w : num) (i : Z),
        port_open s = true -> write_power s = false ->
        Py.int w = Ok i -> set_power w s = Ok s1 ->
        snd (_poll_loop (S n) s1)
        = (if Z.max 0 i =? power s then ST else PW (Z.max 0 i)) :: repeat ST n)
  /\ (forall (n : nat) (s s1 s2 : t) (a b : num) (i : Z),
        port_open s = true ->
        Py.int b = Ok i ->
        set_power a s = Ok s1 -> set_power b s1 = Ok s2 ->
        snd (_poll_loop (S n) s2)
        = (if write_power s2 then PW (Z.max 0 i) else ST) :: repeat ST n)
  /\ (forall (n : nat) (s : t),
        port_open s = false -> _poll_loop n s = (s, [])).
Proof.
  assert (Hset : forall w s s1 i,
             Py.int w = Ok i -> set_power w s = Ok s1 ->
             port_open s1 = port_open s /\ power s1 = Z.max 0 i
             /\ write_power s1
                = (if Z.max 0 i =? power s then write_power s else true)).
  { intros w s s1 i Hi Hs. unfold set_power in Hs. rewrite Hi in Hs.
    cbn [bind] in Hs. destruct (Z.max 0 i =? power s) eqn:E;
      inversion Hs; subst s1; cbn; repeat split.
    symmetry. now apply Z.eqb_eq. }
  split; [exact poll_loop_open | split; [|split]].
  - intros n s s1 w i Ho Hw Hi Hs.
    destruct (Hset w s s1 i Hi Hs) as (Ho1 & Hp1 & Hw1).
    rewrite poll_loop_open by congruence. cbn [snd].
    rewrite Hw1, Hp1, Hw. destruct (Z.max 0 i =? power s); reflexivity.
  - intros n s s1 s2 a b i Ho Hi Ha Hb.
    destruct (Hset b s1 s2 i Hi Hb) as (Ho2 & Hp2 & _).
    assert (Ho1 : port_open s1 = port_open s).
    { unfold set_power in Ha. destruct (Py.int a); cbn [bind] in Ha; [|discriminate].
      destruct (_ =? _); inversion Ha; reflexivity. }
    rewrite poll_loop_open by congruence. cbn [snd]. now rewrite Hp2.
  - intros n s Hc. destruct n; cbn; [reflexivity|]. now rewrite Hc.
Qed.

Lemma pending_write_sent_once_witness :
  snd (_poll_loop 3 (mk true true 150)) = [PW 150; ST; ST].
Proof.
  destruct pending_write_sent_once as (H & _).
  rewrite (H 2%nat (mk true true 150) eq_refl). reflexivity.
Defined.

End KettlerUSBMore.

(* ================================================================== *)
(** ** Further properties of the control point *)
(* ================================================================== *)

Module ControlPointMore.
Import Py KettlerBLE Scenarios.

Lemma byte_val_inj b b' : byte_val b = byte_val b' -> b = b'.
Proof.
  unfold byte_val. intro H. apply N2Z.inj in H.
  pose proof (Byte.of_to_N b) as Hb. rewrite H, Byte.of_to_N in Hb.
  now inversion Hb.
Qed.

Lemma with_under_control_same s : with_under_control (under_control s) s = s.
Proof. destruct s; reflexivity. Qed.

(** Every case of the handler at once: the write, the tests on the opcode,
    the control flag, the callback and its result. *)
Ltac handler_cases value s cb e :=
  unfold _handle_control_point_write, guarded_call, optional_call,
    _send_control_point_response;
  destruct value as [|b0 rest]; [|
    destruct (byte_val b0 =? 0x00) eqn:E00; [|
    destruct (byte_val b0 =? 0x01) eqn:E01; [|
    destruct (byte_val b0 =? 0x05) eqn:E05; [|
    destruct (byte_val b0 =? 0x07) eqn:E07; [|
    destruct (byte_val b0 =? 0x08) eqn:E08; [|
    destruct (byte_val b0 =? 0x11) eqn:E11]]]]]];
  destruct (under_control s) eqn:Hs;
  try destruct (3 <=? List.length (b0 :: rest))%nat;
  try destruct (7 <=? List.length (b0 :: rest))%nat;
  destruct cb as [f|];
  try match goal with
      | |- context [f ?m e] => destruct (f m e) as [e' [[|]|x]] eqn:Hf
      end;
  destruct (control_point_char s) eqn:Hc;
  cbn [fst snd negb under_control with_under_control control_point_char].

(** X9: a write to the control point touches nothing of the bridge but the
    control flag: stored characteristic values, crank counters, time stamp
    and subscriptions are as before, whatever the write and the callback. *)
Theorem control_point_write_frame
  (E : Type) (cb : option (message -> E -> E * result bool))
  (value : list Byte.byte) (s : t) (e : E) :
  let s' := fst (fst (_handle_control_point_write cb value s e)) in
  s' = with_under_control (under_control s') s.
Proof.
  handler_cases value s cb e;
    first [ reflexivity | symmetry; apply with_under_control_same ].
Qed.

(** X10: control is gained only by a write of opcode 0x00 that the callback
    grants, and lost only by a write of opcode 0x01; no other write, and no
    write without a callback, changes who is in control. *)
Theorem control_gained_and_lost
  (E : Type) (cb : option (message -> E -> E * result bool))
  (value : list Byte.byte) (s : t) (e : E) :
  let s' := fst (fst (_handle_control_point_write cb value s e)) in
  (under_control s = false -> under_control s' = true ->
   exists rest f,
     value = Byte.x00 :: rest /\ cb = Some f /\ snd (f Control e) = Ok true)
  /\ (under_control s = true -> under_control s' = false ->
      exists rest, value = Byte.x01 :: rest).
Proof.
  handler_cases value s cb e; split; intros H1 H2;
    try discriminate; try congruence.
  all: try (apply Z.eqb_eq in E00;
            apply (byte_val_inj b0 Byte.x00) in E00; subst b0).
  all: try (apply Z.eqb_eq in E01;
            apply (byte_val_inj b0 Byte.x01) in E01; subst b0).
  all: try (exists rest; reflexivity).
  all: try (exists rest; eexists; repeat split; rewrite Hf; reflexivity).
Qed.

Lemma control_gained_and_lost_witness :
  under_control
    (fst (fst (Server.control_point_write [Byte.x05; Byte.xc8; Byte.x00]
                 (init 0) Server.init)))
  = false.
Proof.
  destruct (under_control
              (fst (fst (Server.control_point_write
                           [Byte.x05; Byte.xc8; Byte.x00] (init 0) Server.init))))
    eqn:H; [|reflexivity].
  destruct (control_gained_and_lost _ (Some Server.ble_control_callback)
              [Byte.x05; Byte.xc8; Byte.x00] (init 0) Server.init)
    as [Hgain _].
  destruct (Hgain eq_refl H) as (rest & f & Hv & _). discriminate Hv.
Defined.

(** X11: a write is answered by at most one indication, and only when a
    central has subscribed to the control point: the three bytes 0x80, the
    opcode written, and a result code between 1 and 5.  An empty write
    changes nothing and is not answered; an opcode other than 0x00, 0x01,
    0x05, 0x07, 0x08 and 0x11 is answered 0x02 without the callback being
    called. *)
Theorem control_point_answers :
  (forall (E : Type) (cb : option (message -> E -> E * result bool))
          (value : list Byte.byte) (s : t) (e : E),
      let pushes := snd (_handle_control_point_write cb value s e) in
      pushes = []
      \/ exists b0 rest rc,
           value = b0 :: rest /\ 1 <= rc <= 5
           /\ control_point_char s <> None
           /\ pushes = [Set_control_point [0x80; byte_val b0; rc]])
  /\ (forall (E : Type) (cb : option (message -> E -> E * result bool))
             (s : t) (e : E),
        _handle_control_point_write cb [] s e = (s, e, []))
  /\ (forall (E : Type) (cb : option (message -> E -> E * result bool))
             (b0 : Byte.byte) (rest : list Byte.byte) (s : t) (e : E),
        known_opcode (byte_val b0) = false ->
        _handle_control_point_write cb (b0 :: rest) s e
        = (s, e, _send_control_point_response (byte_val b0) 0x02 s)).
Proof.
  split; [|split].
  - intros E cb value s e.
    handler_cases value s cb e; rewrite ?Hc; try (left; reflexivity);
      right; exists b0; exists rest;
      unfold RESULT_SUCCESS, RESULT_OPERATION_FAILED, RESULT_INVALID_PARAMETER,
        RESULT_CONTROL_NOT_PERMITTED, RESULT_OP_CODE_NOT_SUPPORTED;
      eexists; (split; [reflexivity|]);
      (split; [|split; [discriminate|reflexivity]]); lia.
  - reflexivity.
  - intros E cb b0 rest s e Hk. unfold known_opcode in Hk.
    repeat (apply orb_false_elim in Hk; destruct Hk as [Hk ?]).
    unfold _handle_control_point_write.
    repeat match goal with H : (_ =? _) = false |- _ => rewrite H; clear H end.
    reflexivity.
Qed.

Lemma control_point_answers_witness :
  Server.control_point_write [Byte.x42]
    (_control_point_indicate_callback true (mkChar true) (init 0)) Server.init
  = (_control_point_indicate_callback true (mkChar true) (init 0), Server.init,
     [Set_control_point [0x80; 0x42; 0x02]]).
Proof.
  destruct control_point_answers as (_ & _ & H).
  exact (H _ (Some Server.ble_control_callback) Byte.x42 []
           (_control_point_indicate_callback true (mkChar true) (init 0))
           Server.init eq_refl).
Defined.

End ControlPointMore.

(* ================================================================== *)
(** ** The control point wired to the server *)
(* ================================================================== *)

Module ServerControlMore.
Import Py KettlerBLE Scenarios.

Lemma world_eta w :
  Server.mk (Server.bike_state w) (Server.kettler_usb w)
            (Server.dashboard w) (Server.serial w) = w.
Proof. destruct w; reflexivity. Qed.

Lemma power_callback p w :
  Server.ble_control_callback (Power p) w
  = (Server.mk
       (BikeState.with_target_power (Some p)
          (BikeState.with_mode BikeState.ERG (Server.bike_state w)))
       (if Z.max 0 p =? KettlerUSB.power (Server.kettler_usb w)
        then Server.kettler_usb w
        else KettlerUSB.mk (KettlerUSB.port_open (Server.kettler_usb w))
                           true (Z.max 0 p))
       (Server.dashboard w
        ++ [BikeState.Emit_mode BikeState.ERG]
        ++ [BikeState.Emit_targetPower p]
        ++ [BikeState.Emit_simpower (Int p)])%list
       (Server.serial w),
     Ok true).
Proof.
  unfold Server.ble_control_callback, BikeState.set_target_power.
  cbn [Py.int Server.settle Server.dispatch Server.on_event
       Server.with_bike_state Server.bike_state Server.kettler_usb
       Server.dashboard Server.serial Server.with_kettler_usb].
  unfold KettlerUSB.set_power. cbn [Py.int bind].
  rewrite <- !app_assoc.
  destruct (Z.max 0 p =? KettlerUSB.power (Server.kettler_usb w));
    reflexivity.
Qed.

(** X12: a Set Target Power write under control reaches the bike: on an
    open port with no write pending, the next turn of the poll loop sends
    [PW] with the unsigned 16-bit value of the write, unless that value is
    the one requested last, and every later turn sends the status query. *)
Theorem target_power_write_reaches_the_bike
  (b1 b2 : Byte.byte) (rest : list Byte.byte)
  (s : t) (w : Server.world) (n : nat) :
  under_control s = true ->
  KettlerUSB.port_open (Server.kettler_usb w) = true ->
  KettlerUSB.write_power (Server.kettler_usb w) = false ->
  let w' := snd (fst (Server.control_point_write
                        (Byte.x05 :: b1 :: b2 :: rest) s w)) in
  let p := byte_val b1 + 256 * byte_val b2 in
  snd (KettlerUSB._poll_loop (S n) (Server.kettler_usb w'))
  = (if p =? KettlerUSB.power (Server.kettler_usb w)
     then KettlerUSB.ST else KettlerUSB.PW p) :: repeat KettlerUSB.ST n.
Proof.
  intros Hs Ho Hw w' p. subst w'.
  unfold Server.control_point_write, _handle_control_point_write.
  change (byte_val Byte.x05) with 5. cbn [Z.eqb Pos.eqb]. rewrite Hs.
  unfold byte_at, guarded_call. cbn [List.length Nat.leb nth].
  rewrite (ControlPointSpec.unpack_H_sum _ _ (ControlPointSpec.byte_val_range b1)).
  fold p. rewrite power_callback. cbn [fst snd Server.kettler_usb].
  assert (Hp : Z.max 0 p = p).
  { pose proof (ControlPointSpec.byte_val_range b1).
    pose proof (ControlPointSpec.byte_val_range b2). subst p. lia. }
  rewrite Hp.
  destruct (Server.kettler_usb w) as [o wp pw]. cbn in Ho, Hw. subst o wp.
  cbn [KettlerUSB.power KettlerUSB.port_open].
  destruct (p =? pw);
    rewrite KettlerUSBMore.poll_loop_open by reflexivity; reflexivity.
Qed.

Lemma target_power_write_reaches_the_bike_witness :
  snd (KettlerUSB._poll_loop 3
         (Server.kettler_usb
            (snd (fst (Server.control_point_write
                         [Byte.x05; Byte.xc8; Byte.x00]
                         (with_under_control true (init 0))
                         (Server.mk BikeState.init (KettlerUSB.mk true false (-1))
                                    [] []))))))
  = [KettlerUSB.PW 200; KettlerUSB.ST; KettlerUSB.ST].
Proof.
  exact (target_power_write_reaches_the_bike Byte.xc8 Byte.x00 []
           (with_under_control true (init 0))
           (Server.mk BikeState.init (KettlerUSB.mk true false (-1)) [] [])
           2%nat eq_refl eq_refl eq_refl).
Defined.

(** X13: simulation parameters need no control: a write of opcode 0x11 with
    at least 7 bytes hands the callback the wind speed (bytes 1-2, signed,
    times 0.001), the grade (bytes 3-4, signed, times 0.01), the rolling
    resistance (byte 5 times 0.0001) and the wind resistance (byte 6 times
    0.01) whether or not the central holds control, and the server then puts
    the bike in SIM mode with these conditions, leaving target power, gear
    and the serial driver alone; a shorter write is answered 0x03 and
    changes nothing. *)
Theorem simulation_needs_no_control :
  (forall (E : Type) (cb : message -> E -> E * result bool)
          (b1 b2 b3 b4 b5 b6 : Byte.byte) (rest : list Byte.byte)
          (s : t) (e : E),
      let m := Simulation
                 (of_Z (unpack_h (byte_val b1) (byte_val b2)) * 0.001)
                 (of_Z (unpack_h (byte_val b3) (byte_val b4)) * 0.01)
                 (of_Z (byte_val b5) * 0.0001)
                 (of_Z (byte_val b6) * 0.01) in
      _handle_control_point_write (Some cb)
        (Byte.x11 :: b1 :: b2 :: b3 :: b4 :: b5 :: b6 :: rest) s e
      = (s, fst (cb m e),
         match snd (cb m e) with
         | Ok true => _send_control_point_response 0x11 RESULT_SUCCESS s
         | Ok false => _send_control_point_response 0x11 RESULT_OPERATION_FAILED s
         | Raise _ => []
         end))
  /\ (forall (b1 b2 b3 b4 b5 b6 : Byte.byte) (rest : list Byte.byte)
             (s : t) (w : Server.world),
        let r := Server.control_point_write
                   (Byte.x11 :: b1 :: b2 :: b3 :: b4 :: b5 :: b6 :: rest) s w in
        let b' := Server.bike_state (snd (fst r)) in
        BikeState.mode b' = BikeState.SIM
        /\ BikeState.external b'
           = Some (BikeState.mkExternal
                     (Float (of_Z (unpack_h (byte_val b1) (byte_val b2)) * 0.001))
                     (Float (of_Z (unpack_h (byte_val b3) (byte_val b4)) * 0.01))
                     (Float (of_Z (byte_val b5) * 0.0001))
                     (Float (of_Z (byte_val b6) * 0.01)))
        /\ BikeState.target_power b' = BikeState.target_power (Server.bike_state w)
        /\ BikeState.gear b' = BikeState.gear (Server.bike_state w)
        /\ Server.kettler_usb (snd (fst r)) = Server.kettler_usb w
        /\ fst (fst r) = s
        /\ snd r = _send_control_point_response 0x11 RESULT_SUCCESS s)
  /\ (forall (E : Type) (cb : option (message -> E -> E * result bool))
             (params : list Byte.byte) (s : t) (e : E),
        (List.length params < 6)%nat ->
        _handle_control_point_write cb (Byte.x11 :: params) s e
        = (s, e, _send_control_point_response 0x11 RESULT_INVALID_PARAMETER s)).
Proof.
  assert (Hgen : forall (E : Type) (cb : message -> E -> E * result bool)
                        b1 b2 b3 b4 b5 b6 rest s e,
             _handle_control_point_write (Some cb)
               (Byte.x11 :: b1 :: b2 :: b3 :: b4 :: b5 :: b6 :: rest) s e
             = (let m := Simulation
                           (of_Z (unpack_h (byte_val b1) (byte_val b2)) * 0.001)
                           (of_Z (unpack_h (byte_val b3) (byte_val b4)) * 0.01)
                           (of_Z (byte_val b5) * 0.0001)
                           (of_Z (byte_val b6) * 0.01) in
                (s, fst (cb m e),
                 match snd (cb m e) with
                 | Ok true => _send_control_point_response 0x11 RESULT_SUCCESS s
                 | Ok false =>
                     _send_control_point_response 0x11 RESULT_OPERATION_FAILED s
                 | Raise _ => []
                 end))).
  { intros E cb b1 b2 b3 b4 b5 b6 rest s e.
    unfold _handle_control_point_write.
    change (byte_val Byte.x11) with 17. cbn [Z.eqb Pos.eqb].
    unfold byte_at, guarded_call. cbn [List.length Nat.leb nth].
    cbn zeta.
    match goal with
    | |- context [cb ?m e] => destruct (cb m e) as [e' [[|]|x]]
    end; reflexivity. }
  split; [|split].
  - intros. apply Hgen.
  - intros b1 b2 b3 b4 b5 b6 rest s w r b'. subst b' r.
    unfold Server.control_point_write. rewrite Hgen. cbn zeta.
    unfold Server.ble_control_callback, BikeState.set_external_condition.
    cbn. repeat split.
  - intros E cb params s e Hlen. unfold _handle_control_point_write.
    change (byte_val Byte.x11) with 17. cbn [Z.eqb Pos.eqb].
    destruct params as [|? [|? [|? [|? [|? [|? ?]]]]]]; cbn in Hlen; try lia;
      reflexivity.
Qed.

Lemma simulation_needs_no_control_witness :
  _handle_control_point_write (Some Server.ble_control_callback)
    [Byte.x11; Byte.x00; Byte.x00] (init 0) Server.init
  = (init 0, Server.init, []).
Proof.
  destruct simulation_needs_no_control as (_ & _ & H).
  apply (H _ (Some Server.ble_control_callback) [Byte.x00; Byte.x00]
           (init 0) Server.init).
  cbn. lia.
Defined.

(** X14: a Reset write under control hands control back, returns the bike
    to ERG mode without its last sample, and keeps gear, target power,
    external conditions and the requested power with its pending flag; the
    serial port, when open, gets the three commands VE, ID, VE and is
    closed.  Without control the write is answered 0x05 and changes
    nothing. *)
Theorem reset_through_server :
  (forall (rest : list Byte.byte) (s : t) (w : Server.world),
      under_control s = true ->
      let r := Server.control_point_write (Byte.x01 :: rest) s w in
      let w' := snd (fst r) in
      let u := Server.kettler_usb w in
      fst (fst r) = with_under_control false s
      /\ Server.bike_state w'
         = BikeState.with_data None
             (BikeState.with_mode BikeState.ERG (Server.bike_state w))
      /\ Server.kettler_usb w'
         = KettlerUSB.mk false (KettlerUSB.write_power u) (KettlerUSB.power u)
      /\ Server.serial w'
         = (Server.serial w
            ++ if KettlerUSB.port_open u
               then [KettlerUSB.VE; KettlerUSB.ID; KettlerUSB.VE] else [])%list
      /\ snd r = _send_control_point_response 0x01 RESULT_SUCCESS s)
  /\ (forall (rest : list Byte.byte) (s : t) (w : Server.world),
        under_control s = false ->
        Server.control_point_write (Byte.x01 :: rest) s w
        = (s, w, _send_control_point_response 0x01 RESULT_CONTROL_NOT_PERMITTED s)).
Proof.
  split.
  - intros rest s w Hs r w' u. subst w' r u.
    unfold Server.control_point_write, _handle_control_point_write.
    change (byte_val Byte.x01) with 1. cbn [Z.eqb Pos.eqb]. rewrite Hs.
    unfold optional_call, Server.ble_control_callback, KettlerUSB.restart.
    destruct w as [b [o wp pw] dash ser].
    cbn [Server.kettler_usb KettlerUSB.port_open].
    destruct o; cbn; rewrite ?app_nil_r; repeat split.
  - intros rest s w Hs.
    unfold Server.control_point_write, _handle_control_point_write.
    change (byte_val Byte.x01) with 1. cbn [Z.eqb Pos.eqb]. rewrite Hs.
    reflexivity.
Qed.

Lemma reset_through_server_witness :
  Server.serial
    (snd (fst (Server.control_point_write [Byte.x01]
                 (with_under_control true (init 0))
                 (Server.mk BikeState.init (KettlerUSB.mk true true 150) [] []))))
  = [KettlerUSB.VE; KettlerUSB.ID; KettlerUSB.VE].
Proof.
  destruct reset_through_server as [H _].
  destruct (H [] (with_under_control true (init 0))
              (Server.mk BikeState.init (KettlerUSB.mk true true 150) [] [])
              eq_refl) as (_ & _ & _ & Hser & _).
  exact Hser.
Defined.

(** X15: the server grants every request for control, and the grant
    changes nothing on the bike side; Start and Stop writes are answered
    0x01 with or without control and change nothing at all. *)
Theorem server_grants_control :
  (forall (rest : list Byte.byte) (s : t) (w : Server.world),
      under_control s = false ->
      Server.control_point_write (Byte.x00 :: rest) s w
      = (with_under_control true s, w,
         _send_control_point_response 0x00 RESULT_SUCCESS s))
  /\ (forall (rest : list Byte.byte) (s : t) (w : Server.world),
        Server.control_point_write (Byte.x07 :: rest) s w
        = (s, w, _send_control_point_response 0x07 RESULT_SUCCESS s))
  /\ (forall (rest : list Byte.byte) (s : t) (w : Server.world),
        Server.control_point_write (Byte.x08 :: rest) s w
        = (s, w, _send_control_point_response 0x08 RESULT_SUCCESS s)).
Proof.
  split; [|split].
  - intros rest s w Hs.
    unfold Server.control_point_write, _handle_control_point_write.
    change (byte_val Byte.x00) with 0. cbn [Z.eqb]. rewrite Hs.
    destruct w; reflexivity.
  - intros rest s w. reflexivity.
  - intros rest s w. reflexivity.
Qed.

Lemma server_grants_control_witness :
  under_control
    (fst (fst (Server.control_point_write [Byte.x00] (init 0) Server.init)))
  = true.
Proof.
  destruct server_grants_control as [H _].
  now rewrite (H [] (init 0) Server.init eq_refl).
Defined.

End ServerControlMore.

(* ================================================================== *)
(** ** Further properties of the notified characteristics *)
(* ================================================================== *)

Module TelemetryMore.
Import Py KettlerBLE Scenarios.

(** *** What [pack] writes, [unpack] reads *)

Lemma le16_range v :
  exists b0 b1,
    le16 v = [b0; b1] /\ is_byte b0 /\ is_byte b1
    /\ b0 + 256 * b1 = v mod 65536.
Proof.
  rewrite CyclingPowerSpec.le16_bytes. unfold is_byte.
  exists (v mod 256), ((v / 256) mod 256).
  pose proof (Z.mod_pos_bound v 256 ltac:(lia)).
  pose proof (Z.mod_pos_bound (v / 256) 256 ltac:(lia)).
  repeat split; try lia.
  change 65536 with (256 * 256). rewrite Z.rem_mul_r by lia. lia.
Qed.

Lemma unpack_H_le16 v b0 b1 :
  le16 v = [b0; b1] -> unpack_H b0 b1 = v mod 65536.
Proof.
  intro H. destruct (le16_range v) as (c0 & c1 & Hc & H0 & _ & Hsum).
  rewrite H in Hc. inversion Hc; subst c0 c1.
  rewrite ControlPointSpec.unpack_H_sum by (unfold is_byte in H0; lia).
  exact Hsum.
Qed.

Lemma unpack_h_le16 v b0 b1 :
  -32768 <= v <= 32767 -> le16 v = [b0; b1] -> unpack_h b0 b1 = v.
Proof.
  intros Hv H. unfold unpack_h. rewrite (unpack_H_le16 v b0 b1 H).
  destruct (Z.ltb_spec (v mod 65536) 32768) as [Hlt|Hge].
  - destruct (Z_lt_le_dec v 0) as [Hneg|Hpos].
    + rewrite <- (Z.mod_add v 1 65536) in Hlt by lia.
      rewrite Z.mod_small in Hlt by lia. lia.
    + apply Z.mod_small. lia.
  - destruct (Z_lt_le_dec v 0) as [Hneg|Hpos].
    + rewrite <- (Z.mod_add v 1 65536) by lia.
      rewrite Z.mod_small by lia. lia.
    + rewrite Z.mod_small in Hge by lia. lia.
Qed.

(** *** Indoor Bike Data *)

(** X16: for a sample whose speed times 100 truncates to [sv] in 0..65535
    (0 when it has no speed), whose rpm is in 0..32767, whose power fits 16
    signed bits and whose heart rate is at most 255 (absent fields count as
    0), the stored Indoor Bike Data are the 10 bytes: flags 0x44 0x02,
    [sv], twice the rpm and the power, each little-endian on 16 bits, the
    heart rate when positive (else 0), and a trailing 0; they are pushed
    exactly when a subscriber is notifying.  A negative or too large rpm, a
    power outside 16 signed bits or a heart rate above 255 leaves the stored
    bytes and pushes nothing. *)
Theorem indoor_bike_data_encoding :
  (forall (d : Sample.t) (s : t) (sv : Z),
      let rpm := Sample.get (Sample.rpm d) 0 in
      let power := Sample.get (Sample.power d) 0 in
      let hr := Sample.get (Sample.hr d) 0 in
      match Sample.speed d with
      | Some v => int_of_float (v * 100)
      | None => Ok 0
      end = Ok sv ->
      0 <= sv <= 65535 -> 0 <= rpm <= 32767 ->
      -32768 <= power <= 32767 -> hr <= 255 ->
      let bytes := ([0x44; 0x02] ++ le16 sv ++ le16 (rpm * 2) ++ le16 power
                    ++ [if 0 <? hr then hr else 0; 0])%list in
      _update_indoor_bike_data d s
      = (with_indoor_bike_data bytes s,
         if notifying (indoor_bike_char s) then [Set_indoor_bike bytes] else []))
  /\ (forall (d : Sample.t) (s : t),
        let rpm := Sample.get (Sample.rpm d) 0 in
        let power := Sample.get (Sample.power d) 0 in
        let hr := Sample.get (Sample.hr d) 0 in
        rpm < 0 \/ 32767 < rpm \/ power < -32768 \/ 32767 < power \/ 255 < hr ->
        _update_indoor_bike_data d s = (s, [])).
Proof.
  split.
  - intros d s sv rpm power hr Hsv Hsvr Hrpm Hpower Hhr bytes.
    unfold _update_indoor_bike_data, indoor_bike_buffer.
    rewrite Hsv. fold rpm power hr. cbn [bind].
    unfold pack_H, pack_h.
    replace ((0 <=? sv) && (sv <=? 65535)) with true
      by (symmetry; apply andb_true_intro; split; apply Z.leb_le; lia).
    replace ((0 <=? rpm * 2) && (rpm * 2 <=? 65535)) with true
      by (symmetry; apply andb_true_intro; split; apply Z.leb_le; lia).
    replace ((-32768 <=? power) && (power <=? 32767)) with true
      by (symmetry; apply andb_true_intro; split; apply Z.leb_le; lia).
    cbn [bind]. subst bytes. unfold le16, write_at.
    destruct (0 <? hr) eqn:Hpos.
    + replace (hr <=? 255) with true by (symmetry; apply Z.leb_le; lia).
      reflexivity.
    + reflexivity.
  - intros d s rpm power hr Hbad.
    unfold _update_indoor_bike_data, indoor_bike_buffer.
    fold rpm power hr.
    destruct (match Sample.speed d with
              | Some v => int_of_float (v * 100)
              | None => Ok 0
              end) as [sv|x]; cbn [bind]; [|reflexivity].
    unfold pack_H at 1.
    destruct ((0 <=? sv) && (sv <=? 65535)); cbn [bind]; [|reflexivity].
    unfold pack_H.
    destruct ((0 <=? rpm * 2) && (rpm * 2 <=? 65535)) eqn:Hr;
      cbn [bind]; [|reflexivity].
    apply andb_prop in Hr. destruct Hr as [Hr1 Hr2].
    apply Z.leb_le in Hr1, Hr2.
    unfold pack_h.
    destruct ((-32768 <=? power) && (power <=? 32767)) eqn:Hp;
      cbn [bind]; [|reflexivity].
    apply andb_prop in Hp. destruct Hp as [Hp1 Hp2].
    apply Z.leb_le in Hp1, Hp2.
    assert (Hhr : 255 < hr) by lia.
    replace (0 <? hr) with true by (symmetry; apply Z.ltb_lt; lia).
    replace (hr <=? 255) with false by (symmetry; apply Z.leb_gt; lia).
    reflexivity.
Qed.

Lemma indoor_bike_data_encoding_witness :
  indoor_bike_data
    (fst (_update_indoor_bike_data
            (Sample.mk (Some 7.5%float) (Some 25) None (Some 47) (Some 47) (Some 101))
            (init 0)))
  = [0x44; 0x02; 238; 2; 94; 0; 25; 0; 101; 0].
Proof.
  destruct indoor_bike_data_encoding as [H _].
  rewrite (H (Sample.mk (Some 7.5%float) (Some 25) None (Some 47) (Some 47) (Some 101))
             (init 0) 750 eq_refl); cbn; try lia; reflexivity.
Defined.

(** *** Cycling Power Measurement *)

(** X17: the Cycling Power Measurement stored by a successful update reads
    back as what went in: 8 bytes, each within 0..255; bytes 0-1 are the
    flags 0x0020; bytes 2-3 read as a signed little-endian integer are the
    power of the sample; bytes 4-5 read unsigned are the truncated
    cumulative revolutions modulo 65536; bytes 6-7 read unsigned are the
    event time ticks modulo 65536. *)
Theorem cycling_power_measurement_decodes
  (now : float) (d : Sample.t) (s : t) (r : float) (ticks revs : Z) :
  let rpm := Sample.get (Sample.rpm d) 0 in
  let power := Sample.get (Sample.power d) 0 in
  let dt := (now - last_update_timestamp s)%float in
  let total := (crank_revolutions s + r / 60 * dt)%float in
  float_of_int rpm = Ok r ->
  int_of_float (dt * 1024) = Ok ticks ->
  int_of_float total = Ok revs ->
  -32768 <= power <= 32767 ->
  let s' := fst (_update_cycling_power now d s) in
  let b i := nth i (cycling_power_data s') 0 in
  List.length (cycling_power_data s') = 8%nat
  /\ Forall is_byte (cycling_power_data s')
  /\ unpack_H (b 0%nat) (b 1%nat) = 0x0020
  /\ unpack_h (b 2%nat) (b 3%nat) = power
  /\ unpack_H (b 4%nat) (b 5%nat) = revs mod 65536
  /\ unpack_H (b 6%nat) (b 7%nat) = (last_event_time s + ticks) mod 65536.
Proof.
  intros rpm power dt total Hr Hticks Hrevs Hpower s' b.
  assert (Hdata : cycling_power_data s'
                  = ([0x20; 0x00] ++ le16 power ++ le16 (revs mod 65536)
                     ++ le16 ((last_event_time s + ticks) mod 65536))%list).
  { subst s'. unfold _update_cycling_power. cbn zeta.
    fold rpm. rewrite Hr.
    cbn [last_update_timestamp crank_revolutions last_event_time
         cycling_power_char with_last_update_timestamp
         with_crank_revolutions with_last_event_time].
    fold dt. rewrite Hticks.
    cbn [last_update_timestamp crank_revolutions last_event_time
         cycling_power_char with_last_update_timestamp
         with_crank_revolutions with_last_event_time].
    fold total. rewrite Hrevs. fold power.
    rewrite (CyclingPowerSpec.pack_h_ok _ Hpower).
    rewrite !CyclingPowerSpec.mask16. reflexivity. }
  destruct (le16_range power) as (p0 & p1 & Hp & Hp0 & Hp1 & _).
  destruct (le16_range (revs mod 65536)) as (c0 & c1 & Hc & Hc0 & Hc1 & _).
  destruct (le16_range ((last_event_time s + ticks) mod 65536))
    as (t0 & t1 & Ht & Ht0 & Ht1 & _).
  subst b. rewrite Hdata, Hp, Hc, Ht. cbn [app nth List.length].
  split; [reflexivity|]. split.
  { repeat constructor; unfold is_byte in *; lia. }
  split; [reflexivity|]. split; [now apply unpack_h_le16|]. split.
  - rewrite (unpack_H_le16 _ _ _ Hc). apply Z.mod_mod. lia.
  - rewrite (unpack_H_le16 _ _ _ Ht). apply Z.mod_mod. lia.
Qed.

Lemma cycling_power_measurement_decodes_witness :
  let s' := fst (_update_cycling_power 2.5
                   (Sample.mk None (Some (-3)) None (Some 60) (Some 60) None)
                   (init 0)) in
  unpack_h (nth 2 (cycling_power_data s') 0) (nth 3 (cycling_power_data s') 0)
  = -3.
Proof.
  destruct (cycling_power_measurement_decodes 2.5%float
              (Sample.mk None (Some (-3)) None (Some 60) (Some 60) None)
              (init 0) 60%float 2560 2 eq_refl eq_refl eq_refl)
    as (_ & _ & _ & H & _).
  - cbn. lia.
  - exact H.
Defined.

(** X18: when the power of a sample does not fit 16 signed bits, the update
    still moves the crank counters and the time stamp, but the stored
    measurement stays as it was and nothing is pushed: the next
    measurement that is stored accounts for the revolutions and ticks of
    the sample that was not. *)
Theorem unencodable_power_keeps_counting
  (now : float) (d : Sample.t) (s : t) (r : float) (ticks revs : Z) :
  let rpm := Sample.get (Sample.rpm d) 0 in
  let power := Sample.get (Sample.power d) 0 in
  let dt := (now - last_update_timestamp s)%float in
  let total := (crank_revolutions s + r / 60 * dt)%float in
  float_of_int rpm = Ok r ->
  int_of_float (dt * 1024) = Ok ticks ->
  int_of_float total = Ok revs ->
  power < -32768 \/ 32767 < power ->
  _update_cycling_power now d s
  = (with_last_event_time (last_event_time s + ticks)
       (with_crank_revolutions total
          (with_last_update_timestamp now s)),
     []).
Proof.
  intros rpm power dt total Hr Hticks Hrevs Hpower.
  unfold _update_cycling_power. cbn zeta.
  fold rpm. rewrite Hr.
  cbn [last_update_timestamp crank_revolutions last_event_time
       cycling_power_char with_last_update_timestamp
       with_crank_revolutions with_last_event_time].
  fold dt. rewrite Hticks.
  cbn [last_update_timestamp crank_revolutions last_event_time
       cycling_power_char with_last_update_timestamp
       with_crank_revolutions with_last_event_time].
  fold total. rewrite Hrevs. fold power. unfold pack_h.
  replace ((-32768 <=? power) && (power <=? 32767)) with false.
  - reflexivity.
  - symmetry. apply andb_false_iff.
    destruct Hpower; [left; apply Z.leb_gt | right; apply Z.leb_gt]; lia.
Qed.

Lemma unencodable_power_keeps_counting_witness :
  let r := _update_cycling_power 1
             (Sample.mk None (Some 40000) None (Some 90) (Some 90) None)
             (init 0) in
  crank_revolutions (fst r) = 1.5%float
  /\ cycling_power_data (fst r) = repeat 0 8
  /\ snd r = [].
Proof.
  cbv zeta.
  rewrite (unencodable_power_keeps_counting 1%float
             (Sample.mk None (Some 40000) None (Some 90) (Some 90) None)
             (init 0) 90%float 1024 1 eq_refl eq_refl eq_refl).
  - repeat split.
  - cbn. lia.
Defined.

(** *** Notifications *)

Lemma update_indoor_shape d s :
  exists a : bool,
    snd (_update_indoor_bike_data d s)
    = (if a then [Set_indoor_bike (indoor_bike_data (fst (_update_indoor_bike_data d s)))]
       else [])
    /\ (a = true -> notifying (indoor_bike_char s) = true)
    /\ fst (_update_indoor_bike_data d s)
       = with_indoor_bike_data
           (indoor_bike_data (fst (_update_indoor_bike_data d s))) s.
Proof.
  unfold _update_indoor_bike_data.
  destruct (indoor_bike_buffer d) as [buffer|x].
  - exists (notifying (indoor_bike_char s)). cbn.
    destruct (notifying (indoor_bike_char s)); repeat split; auto.
  - exists false. cbn. repeat split; try discriminate. destruct s; reflexivity.
Qed.

Lemma update_cycling_shape now d s :
  let r := _update_cycling_power now d s in
  exists a : bool,
    snd r = (if a then [Set_cycling_power (cycling_power_data (fst r))] else [])
    /\ (a = true -> notifying (cycling_power_char s) = true)
    /\ under_control (fst r) = under_control s
    /\ indoor_bike_data (fst r) = indoor_bike_data s
    /\ indoor_bike_char (fst r) = indoor_bike_char s
    /\ cycling_power_char (fst r) = cycling_power_char s
    /\ control_point_char (fst r) = control_point_char s.
Proof.
  unfold _update_cycling_power.
  destruct (float_of_int _); [|exists false; cbn; repeat split; discriminate].
  destruct (int_of_float _); [|exists false; cbn; repeat split; discriminate].
  destruct (int_of_float _); [|exists false; cbn; repeat split; discriminate].
  destruct (pack_h _); [|exists false; cbn; repeat split; discriminate].
  exists (notifying (cycling_power_char s)). cbn.
  destruct (notifying (cycling_power_char s)); repeat split; auto.
Qed.

Lemma notify_ftms_shape (now : float) (d : Sample.t) (s : t) :
  let s' := fst (notify_ftms now d s) in
  (exists a b : bool,
      snd (notify_ftms now d s)
      = ((if a then [Set_indoor_bike (indoor_bike_data s')] else [])
         ++ (if b then [Set_cycling_power (cycling_power_data s')] else []))%list
      /\ (a = true -> notifying (indoor_bike_char s) = true)
      /\ (b = true -> notifying (cycling_power_char s) = true))
  /\ under_control s' = under_control s
  /\ indoor_bike_char s' = indoor_bike_char s
  /\ cycling_power_char s' = cycling_power_char s
  /\ control_point_char s' = control_point_char s.
Proof.
  unfold notify_ftms.
  destruct (Sample.truthy d); cbn [negb].
  2:{ cbn. split; [exists false, false; repeat split; discriminate|].
      repeat split. }
  destruct (Sample.is_some (Sample.speed d) || Sample.is_some (Sample.rpm d)
            || Sample.is_some (Sample.power d)).
  - destruct (update_indoor_shape d s) as (a & Ha & Hna & Hs1).
    destruct (_update_indoor_bike_data d s) as [s1 p1]. cbn [fst snd] in *.
    destruct (Sample.is_some (Sample.power d)).
    + pose proof (update_cycling_shape now d s1) as H. cbn zeta in H.
      destruct H as (b & Hb & Hnb & Hu & Hi & Hic & Hcc & Hpc).
      destruct (_update_cycling_power now d s1) as [s2 p2]. cbn [fst snd] in *.
      rewrite Hs1 in Hu, Hic, Hcc, Hpc, Hnb. cbn in Hu, Hic, Hcc, Hpc, Hnb.
      split; [|repeat split; assumption].
      exists a, b. rewrite Ha, Hb, Hi. repeat split; assumption.
    + cbn [fst snd]. rewrite app_nil_r. rewrite Hs1. cbn.
      split; [|repeat split].
      exists a, false. rewrite Ha, app_nil_r, Hs1. cbn.
      repeat split; [assumption | discriminate].
  - destruct (Sample.is_some (Sample.power d)).
    + pose proof (update_cycling_shape now d s) as H. cbn zeta in H.
      destruct H as (b & Hb & Hnb & Hu & Hi & Hic & Hcc & Hpc).
      destruct (_update_cycling_power now d s) as [s2 p2]. cbn [fst snd] in *.
      split; [|repeat split; assumption].
      exists false, b. rewrite Hb. repeat split; [discriminate | assumption].
    + cbn. split; [exists false, false; repeat split; discriminate|].
      repeat split.
Qed.

(** X19: a sample leads to at most one push of Indoor Bike Data followed by
    at most one push of the Cycling Power Measurement, each carrying the
    value that is stored afterwards and each only to a subscriber that is
    notifying; it never indicates on the control point and never changes
    the control flag or a subscription. *)
Theorem notify_ftms_pushes (now : float) (d : Sample.t) (s : t) :
  let s' := fst (notify_ftms now d s) in
  (exists a b : bool,
      snd (notify_ftms now d s)
      = ((if a then [Set_indoor_bike (indoor_bike_data s')] else [])
         ++ (if b then [Set_cycling_power (cycling_power_data s')] else []))%list
      /\ (a = true -> notifying (indoor_bike_char s) = true)
      /\ (b = true -> notifying (cycling_power_char s) = true))
  /\ under_control s' = under_control s
  /\ indoor_bike_char s' = indoor_bike_char s
  /\ cycling_power_char s' = cycling_power_char s
  /\ control_point_char s' = control_point_char s.
Proof. exact (notify_ftms_shape now d s). Qed.

(** X20: a characteristic without a notifying subscriber is never pushed,
    however many samples arrive: with none on the Cycling Power Measurement
    no sequence of samples pushes it, and likewise for Indoor Bike Data. *)
Theorem no_subscriber_no_push (xs : list (float * Sample.t)) (s : t) :
  (notifying (cycling_power_char s) = false ->
   forall v, ~ In (Set_cycling_power v) (snd (notify_all xs s)))
  /\ (notifying (indoor_bike_char s) = false ->
      forall v, ~ In (Set_indoor_bike v) (snd (notify_all xs s)))
  /\ (forall v, ~ In (Set_control_point v) (snd (notify_all xs s))).
Proof.
  revert s. induction xs as [|[now d] rest IH]; intro s.
  - cbn. repeat split; intros; tauto.
  - cbn [notify_all].
    pose proof (notify_ftms_shape now d s) as H. cbn zeta in H.
    destruct H as ((a & b & Hp & Ha & Hb) & _ & Hic & Hcc & _).
    destruct (notify_ftms now d s) as [s1 p1]. cbn [fst snd] in *.
    specialize (IH s1). destruct IH as (IHc & IHi & IHp).
    destruct (notify_all rest s1) as [s2 p2]. cbn [fst snd] in *.
    rewrite Hcc in IHc. rewrite Hic in IHi. subst p1.
    repeat split.
    + intros Hn v Hin. apply in_app_or in Hin. destruct Hin as [Hin|Hin].
      * destruct b; [rewrite Hb in Hn by reflexivity; discriminate|].
        destruct a; cbn in Hin; intuition discriminate.
      * exact (IHc Hn v Hin).
    + intros Hn v Hin. apply in_app_or in Hin. destruct Hin as [Hin|Hin].
      * destruct a; [rewrite Ha in Hn by reflexivity; discriminate|].
        destruct b; cbn in Hin; intuition discriminate.
      * exact (IHi Hn v Hin).
    + intros v Hin. apply in_app_or in Hin. destruct Hin as [Hin|Hin].
      * destruct a, b; cbn in Hin; intuition discriminate.
      * exact (IHp v Hin).
Qed.

Lemma no_subscriber_no_push_witness :
  notifying (cycling_power_char (init 0)) = false
  /\ (forall v,
        ~ In (Set_cycling_power v)
             (snd (notify_all
                     [(1%float, Sample.mk None (Some 25) None (Some 90) (Some 90) None);
                      (2%float, Sample.mk None (Some 30) None (Some 95) (Some 95) None)]
                     (init 0)))).
Proof.
  split; [reflexivity|].
  exact (proj1 (no_subscriber_no_push
                  [(1%float, Sample.mk None (Some 25) None (Some 90) (Some 90) None);
                   (2%float, Sample.mk None (Some 30) None (Some 95) (Some 95) None)]
                  (init 0)) eq_refl).
Defined.

End TelemetryMore.

(* ================================================================== *)
(** ** Properties of the handlers of server.py *)
(* ================================================================== *)

Module ServerMore.
Import Py Scenarios.

Lemma dispatch_quiet evs :
  forall w,
    quiet evs ->
    Server.dispatch evs w
    = (Server.mk (Server.bike_state w) (Server.kettler_usb w)
                 (Server.dashboard w ++ evs) (Server.serial w), None).
Proof.
  induction evs as [|ev rest IH]; intros w Hq.
  - cbn. rewrite app_nil_r. now rewrite ServerControlMore.world_eta.
  - assert (Hrest : quiet rest).
    { intros p Hin. apply (Hq p). now right. }
    cbn [Server.dispatch].
    destruct ev; try (exfalso; apply (Hq p); now left);
      cbn [Server.on_event]; rewrite IH by exact Hrest; cbn;
      rewrite <- app_assoc; reflexivity.
Qed.

Lemma dispatch_app l1 l2 w :
  Server.dispatch (l1 ++ l2) w
  = match Server.dispatch l1 w with
    | (w1, None) => Server.dispatch l2 w1
    | (w1, Some e) => (w1, Some e)
    end.
Proof.
  revert w. induction l1 as [|ev rest IH]; intro w; cbn [app Server.dispatch].
  - reflexivity.
  - destruct (Server.on_event ev w) as [w1 [e|]]; [reflexivity | apply IH].
Qed.

Lemma settle_int_power b pre v w :
  quiet pre ->
  exists u',
    KettlerUSB.set_power (Int v) (Server.kettler_usb w) = Ok u'
    /\ KettlerUSB.power u' = Z.max 0 v
    /\ KettlerUSB.port_open u' = KettlerUSB.port_open (Server.kettler_usb w)
    /\ Server.settle (b, (pre ++ [BikeState.Emit_simpower (Int v)])%list, None) w
       = (Server.mk b u'
            (Server.dashboard w ++ pre ++ [BikeState.Emit_simpower (Int v)])
            (Server.serial w), None).
Proof.
  intro Hq. unfold Server.settle. rewrite dispatch_app, dispatch_quiet by exact Hq.
  cbn [Server.dispatch Server.on_event Server.with_bike_state Server.bike_state
       Server.kettler_usb Server.dashboard Server.serial].
  unfold KettlerUSB.set_power. cbn [Py.int bind].
  destruct (Z.max 0 v =? KettlerUSB.power (Server.kettler_usb w)) eqn:E;
    eexists; (split; [reflexivity|]); cbn; rewrite <- ?app_assoc;
    repeat split.
  symmetry. now apply Z.eqb_eq.
Qed.

Lemma handle_key_step k w :
  BikeState.mode (Server.bike_state w) = BikeState.ERG ->
  1 <= BikeState.gear (Server.bike_state w) <= 20 ->
  in_step w ->
  let w' := fst (Server.handle_key k w) in
  snd (Server.handle_key k w) = None
  /\ BikeState.mode (Server.bike_state w') = BikeState.ERG
  /\ 1 <= BikeState.gear (Server.bike_state w') <= 20
  /\ in_step w'.
Proof.
  intros Hm Hg Hs. unfold Server.handle_key.
  destruct (String.eqb k "PowerUp"); [|destruct (String.eqb k "PowerDn");
    [|destruct (String.eqb k "GearUp"); [|destruct (String.eqb k "GearDn");
    [|destruct (String.eqb k "pause")]]]].
  - unfold BikeState.add_power.
    destruct (settle_int_power
                (BikeState.with_target_power
                   (Some (Z.max 0 (Z.min 1000
                      (match BikeState.target_power (Server.bike_state w) with
                       | Some p => p | None => 100 end + 20))))
                   (Server.bike_state w))
                [BikeState.Emit_targetPower
                   (Z.max 0 (Z.min 1000
                      (match BikeState.target_power (Server.bike_state w) with
                       | Some p => p | None => 100 end + 20)))]
                (Z.max 0 (Z.min 1000
                      (match BikeState.target_power (Server.bike_state w) with
                       | Some p => p | None => 100 end + 20))) w)
      as (u' & _ & Hp & _ & Hset).
    { intros p [H|[]]. discriminate H. }
    cbn [app] in Hset. cbn zeta. rewrite Hset. unfold in_step.
    cbn [fst snd Server.bike_state Server.kettler_usb BikeState.mode
         BikeState.gear BikeState.target_power BikeState.with_target_power].
    split; [reflexivity|]. split; [assumption|]. split; [assumption|].
    right. eexists. split; [reflexivity|]. split; [lia|]. rewrite Hp. lia.
  - unfold BikeState.add_power.
    destruct (settle_int_power
                (BikeState.with_target_power
                   (Some (Z.max 0 (Z.min 1000
                      (match BikeState.target_power (Server.bike_state w) with
                       | Some p => p | None => 100 end + -20))))
                   (Server.bike_state w))
                [BikeState.Emit_targetPower
                   (Z.max 0 (Z.min 1000
                      (match BikeState.target_power (Server.bike_state w) with
                       | Some p => p | None => 100 end + -20)))]
                (Z.max 0 (Z.min 1000
                      (match BikeState.target_power (Server.bike_state w) with
                       | Some p => p | None => 100 end + -20))) w)
      as (u' & _ & Hp & _ & Hset).
    { intros p [H|[]]. discriminate H. }
    cbn [app] in Hset. cbn zeta. rewrite Hset. unfold in_step.
    cbn [fst snd Server.bike_state Server.kettler_usb BikeState.mode
         BikeState.gear BikeState.target_power BikeState.with_target_power].
    split; [reflexivity|]. split; [assumption|]. split; [assumption|].
    right. eexists. split; [reflexivity|]. split; [lia|]. rewrite Hp. lia.
  - unfold BikeState.gear_up, Server.settle, BikeState.MAX_GEAR.
    cbn [Server.dispatch Server.on_event]. cbn.
    repeat split; try assumption; try lia.
  - unfold BikeState.gear_down, Server.settle, BikeState.MIN_GEAR.
    cbn [Server.dispatch Server.on_event]. cbn.
    repeat split; try assumption; try lia.
  - unfold BikeState.set_target_power. cbn [Py.int].
    destruct (settle_int_power
                (BikeState.with_target_power (Some 140)
                   (BikeState.with_mode BikeState.ERG (Server.bike_state w)))
                [BikeState.Emit_mode BikeState.ERG; BikeState.Emit_targetPower 140]
                140 w)
      as (u' & _ & Hp & _ & Hset).
    { intros p [H|[H|[]]]; discriminate H. }
    cbn [app] in Hset. rewrite Hset. cbn.
    repeat split; try assumption; try lia.
    right. exists 140. repeat split; try lia. exact Hp.
  - cbn. repeat split; try assumption; lia.
Qed.

(** X21: whatever keys are pressed on the dashboard, in whatever order, no
    handler raises, the bike stays in ERG mode with a gear in 1..20, and
    the power requested from the serial driver stays in step with the
    target power: both unset, or both the same value within 0..1000. *)
Theorem dashboard_keys_keep_in_step (keys : list string) (k : string) :
  let w := press_all keys Server.init in
  BikeState.mode (Server.bike_state w) = BikeState.ERG
  /\ 1 <= BikeState.gear (Server.bike_state w) <= 20
  /\ in_step w
  /\ snd (Server.handle_key k w) = None.
Proof.
  assert (H : forall keys w,
             BikeState.mode (Server.bike_state w) = BikeState.ERG ->
             1 <= BikeState.gear (Server.bike_state w) <= 20 ->
             in_step w ->
             BikeState.mode (Server.bike_state (press_all keys w)) = BikeState.ERG
             /\ 1 <= BikeState.gear (Server.bike_state (press_all keys w)) <= 20
             /\ in_step (press_all keys w)).
  { clear keys. induction keys as [|k' rest IH]; intros w Hm Hg Hs; cbn [press_all].
    - repeat split; try assumption; lia.
    - destruct (handle_key_step k' w Hm Hg Hs) as (_ & Hm' & Hg' & Hs').
      apply IH; assumption. }
  destruct (H keys Server.init) as (Hm & Hg & Hs).
  - reflexivity.
  - cbn. lia.
  - left. split; reflexivity.
  - cbn zeta. repeat split; try assumption; try lia.
    exact (proj1 (handle_key_step k _ Hm Hg Hs)).
Qed.

Lemma settle_quiet b evs w :
  quiet evs ->
  Server.settle (b, evs, None) w
  = (Server.mk b (Server.kettler_usb w) (Server.dashboard w ++ evs)
               (Server.serial w), None).
Proof.
  intro Hq. unfold Server.settle. now rewrite dispatch_quiet by exact Hq.
Qed.

(** X24: the mode switch of the dashboard: SIM puts the bike in SIM mode
    with no wind and a grade of 3 (kept as an int) and requests nothing
    from the serial driver; ERG sets the target power to 100, whatever it
    was, requests 100 watts and keeps the external conditions; both keep
    the gear and neither raises; any other word changes nothing. *)
Theorem dashboard_mode_switch :
  (forall w : Server.world,
      let w' := fst (Server.handle_mode "SIM" w) in
      let b := Server.bike_state w in
      snd (Server.handle_mode "SIM" w) = None
      /\ Server.bike_state w'
         = BikeState.with_external
             (Some (BikeState.mkExternal (Int 0) (Int 3) (Float 0.005) (Float 0.39)))
             (BikeState.with_mode BikeState.SIM b)
      /\ Server.kettler_usb w' = Server.kettler_usb w
      /\ Server.dashboard w'
         = (Server.dashboard w
            ++ [BikeState.Emit_mode BikeState.SIM;
                BikeState.Emit_windspeed (Float 0);
                BikeState.Emit_grade (Int 3)])%list)
  /\ (forall w : Server.world,
        let w' := fst (Server.handle_mode "ERG" w) in
        let b := Server.bike_state w in
        snd (Server.handle_mode "ERG" w) = None
        /\ Server.bike_state w'
           = BikeState.with_target_power (Some 100)
               (BikeState.with_mode BikeState.ERG b)
        /\ KettlerUSB.power (Server.kettler_usb w') = 100)
  /\ (forall (m : string) (w : Server.world),
        m <> "SIM"%string -> m <> "ERG"%string ->
        Server.handle_mode m w = (w, None)).
Proof.
  split; [|split].
  - intro w. cbn zeta. unfold Server.handle_mode.
    cbn [String.eqb Ascii.eqb Bool.eqb andb].
    unfold BikeState.set_external_condition. cbn beta iota zeta.
    change (float_of_int 0) with (@Ok float 0%float). cbn beta iota.
    rewrite settle_quiet.
    + cbn [fst snd Server.bike_state Server.kettler_usb Server.dashboard].
      repeat split.
    + intros p Hin. cbn in Hin. intuition discriminate.
  - intro w. cbn zeta. unfold Server.handle_mode.
    cbn [String.eqb Ascii.eqb Bool.eqb andb].
    unfold BikeState.set_target_power. cbn [Py.int].
    destruct (settle_int_power
                (BikeState.with_target_power (Some 100)
                   (BikeState.with_mode BikeState.ERG (Server.bike_state w)))
                [BikeState.Emit_mode BikeState.ERG; BikeState.Emit_targetPower 100]
                100 w)
      as (u' & _ & Hp & _ & Hset).
    { intros p [H|[H|[]]]; discriminate H. }
    cbn [app] in Hset. rewrite Hset. cbn [fst snd Server.bike_state Server.kettler_usb].
    repeat split. exact Hp.
  - intros m w Hs He. unfold Server.handle_mode.
    apply String.eqb_neq in Hs, He. now rewrite Hs, He.
Qed.

Lemma dashboard_mode_switch_witness :
  Server.handle_mode "erg" Server.init = (Server.init, None).
Proof.
  destruct dashboard_mode_switch as (_ & _ & H).
  apply H; discriminate.
Defined.

Lemma set_data_erg d b :
  BikeState.mode b = BikeState.ERG ->
  exists evs,
    quiet evs
    /\ BikeState.set_data d b = (fst (fst (BikeState.set_data d b)), evs, None).
Proof.
  intro Hm. unfold BikeState.set_data.
  cbn [BikeState.with_data BikeState.target_power].
  destruct (BikeState.target_power b) as [p|];
    destruct (Sample.targetPower d) as [tp|];
    unfold BikeState.compute; cbn; rewrite Hm; cbn;
    eexists; (split; [|reflexivity]); intros q Hin; cbn in Hin;
    intuition discriminate.
Qed.

(** X22: in ERG mode a sample never fails and never changes what is
    requested from the serial driver: [on_data] stores it in the bike
    state, leaves the serial driver and its command log as they were, sends
    the fields of the sample to the web clients, and hands the sample to
    [notify_ftms]. *)
Theorem erg_sample_reaches_ble
  (now : float) (d : Sample.t) (w : Server.world) (ble : KettlerBLE.t) :
  BikeState.mode (Server.bike_state w) = BikeState.ERG ->
  exists w',
    Server.on_data now d w ble
    = (w', fst (KettlerBLE.notify_ftms now d ble), Server.to_web d,
       snd (KettlerBLE.notify_ftms now d ble), None)
    /\ Server.bike_state w' = fst (fst (BikeState.set_data d (Server.bike_state w)))
    /\ BikeState.data (Server.bike_state w') = Some d
    /\ Server.kettler_usb w' = Server.kettler_usb w
    /\ Server.serial w' = Server.serial w.
Proof.
  intro Hm. unfold Server.on_data.
  destruct (set_data_erg d (Server.bike_state w) Hm) as (evs & Hq & Hset).
  rewrite Hset. unfold Server.settle.
  rewrite dispatch_quiet by exact Hq.
  cbn [Server.with_bike_state Server.bike_state Server.kettler_usb
       Server.dashboard Server.serial].
  destruct (KettlerBLE.notify_ftms now d ble) as [ble' pushes].
  eexists. split; [reflexivity|]. cbn. repeat split.
  rewrite BikeStateMore.set_data_state. reflexivity.
Qed.

Lemma erg_sample_reaches_ble_witness :
  exists w',
    Server.on_data 1 (Sample.mk None (Some 25) (Some 150) (Some 60) (Some 60) None)
      Server.init (KettlerBLE.init 0)
    = (w',
       fst (KettlerBLE.notify_ftms 1
              (Sample.mk None (Some 25) (Some 150) (Some 60) (Some 60) None)
              (KettlerBLE.init 0)),
       [Server.Web_power 25; Server.Web_targetPower 150; Server.Web_rpm 60],
       [], None).
Proof.
  destruct (erg_sample_reaches_ble 1%float
              (Sample.mk None (Some 25) (Some 150) (Some 60) (Some 60) None)
              Server.init (KettlerBLE.init 0) eq_refl) as (w' & H & _).
  exists w'. exact H.
Defined.





End ServerMore.
